(** * FinBot teaching demo (main.py): a shallow embedding and its properties

    The program is one Flask route that fetches two quotes through yfinance,
    computes a profit percentage per position, asks Gemini for a summary and
    optionally forwards the report to Telegram.  Everything outside the
    process (environment variables, the quote provider, the inference
    service, the webhook, the random generator, the inbound query string) is
    a [World]; a run produces a value or a Python exception together with the
    list of events it performed. *)

From Stdlib Require Import ZArith List String Ascii Bool Lia.
From Stdlib Require Import PrimFloat FloatOps SpecFloat.
Import ListNotations.

Open Scope string_scope.
Open Scope Z_scope.

(** ** Python values used by the script *)

Module Py.

(** Line feed, written [\n] in the source's literals. *)
Definition LF : string := String (ascii_of_nat 10) EmptyString.

(** An instance of [Exception]: its class name and its [str()].  The
    external calls raise nothing else; [KeyboardInterrupt] and [SystemExit]
    belong to the process, not to a request. *)
Inductive exn : Type :=
| Exception (cls : string) (msg : string).

Definition str_exn (e : exn) : string :=
  match e with Exception _ msg => msg end.

(** Outcome of evaluating an expression or a call. *)
Inductive result (A : Type) : Type :=
| Ok (a : A)
| Raise (e : exn).

Arguments Ok {A} a.
Arguments Raise {A} e.

(** Truth value of [None | str]: [None] and the empty string are false. *)
Definition truthy_str (s : option string) : bool :=
  match s with
  | None => false
  | Some EmptyString => false
  | Some (String _ _) => true
  end.

(** Truth value of [None | float]: [None], [0.0] and [-0.0] are false,
    NaN is true. *)
Definition truthy_float (p : option float) : bool :=
  match p with
  | None => false
  | Some x => negb (PrimFloat.eqb x 0%float)
  end.

(** [float(x)] for [x : None | float]. *)
Definition float_of (p : option float) : result float :=
  match p with
  | Some x => Ok x
  | None =>
      Raise (Exception "TypeError"
        "float() argument must be a string or a real number, not 'NoneType'")
  end.

(** [str(x)] inside an f-string for [x : None | str]. *)
Definition format_str (s : option string) : string :=
  match s with
  | Some x => x
  | None => "None"
  end.

(** Conversion of an [int] operand of a float operation: the nearest double,
    ties to even; [OverflowError] when that is not finite. *)
Definition float_of_int (z : Z) : result float :=
  let f := SF2Prim (binary_normalize prec emax z 0 false) in
  if is_infinity f
  then Raise (Exception "OverflowError" "int too large to convert to float")
  else Ok f.

(** [x - n], [x / n] and [x * n] for a float [x] and an int [n]. *)
Definition sub_fi (x : float) (n : Z) : result float :=
  match float_of_int n with
  | Ok y => Ok (x - y)%float
  | Raise e => Raise e
  end.

Definition truediv_fi (x : float) (n : Z) : result float :=
  match float_of_int n with
  | Ok y =>
      if (y =? 0)%float
      then Raise (Exception "ZeroDivisionError" "float division by zero")
      else Ok (x / y)%float
  | Raise e => Raise e
  end.

Definition mul_fi (x : float) (n : Z) : result float :=
  match float_of_int n with
  | Ok y => Ok (x * y)%float
  | Raise e => Raise e
  end.

(** *** Decimal rendering *)

Definition digit_char (d : Z) : ascii := ascii_of_nat (48 + Z.to_nat d).

Fixpoint digits_fuel (fuel : nat) (n : Z) (acc : string) : string :=
  match fuel with
  | O => acc
  | S fuel' =>
      let acc' := String (digit_char (n mod 10)) acc in
      if n <? 10 then acc' else digits_fuel fuel' (n / 10) acc'
  end.

(** Decimal digits of a natural number. *)
Definition str_nat (n : Z) : string :=
  digits_fuel (S (Z.to_nat (Z.log2 n))) n "".

(** [str(n)] for an [int]. *)
Definition str_int (n : Z) : string :=
  if n <? 0 then "-" ++ str_nat (- n) else str_nat n.

Definition round_half_even (num den : Z) : Z :=
  let q := num / den in
  let r := num mod den in
  match 2 * r ?= den with
  | Lt => q
  | Gt => q + 1
  | Eq => if Z.even q then q else q + 1
  end.

Fixpoint pad_zeros (n : nat) (s : string) : string :=
  match n with
  | O => s
  | S n' => pad_zeros n' (String "0"%char s)
  end.

(** The integer [n] read as [n / 10^d], with [d >= 1] fractional digits. *)
Definition place_point (d : nat) (n : Z) : string :=
  let ds := str_nat n in
  let ds := pad_zeros (S d - String.length ds) ds in
  let k := (String.length ds - d)%nat in
  substring 0 k ds ++ "." ++ substring k d ds.

(** Magnitude [m * 2^e] rounded to [d] fractional digits, ties to even on
    the exact binary value. *)
Definition fixed_digits (d : nat) (m : positive) (e : Z) : string :=
  let scale := 10 ^ Z.of_nat d in
  let n :=
    if 0 <=? e then Z.pos m * 2 ^ e * scale
    else round_half_even (Z.pos m * scale) (2 ^ (- e)) in
  place_point d n.

(** [format(x, '.<d>f')] for [d >= 1]. *)
Definition format_f (d : nat) (x : float) : string :=
  match Prim2SF x with
  | S754_nan => "nan"
  | S754_infinity s => if s then "-inf" else "inf"
  | S754_zero s => (if s then "-" else "") ++ place_point d 0
  | S754_finite s m e => (if s then "-" else "") ++ fixed_digits d m e
  end.

(** *** [repr] of a float *)

(** [a * 10^p] for an integer [p] of either sign is [a * pow10 p / pow10 (-p)]. *)
Definition pow10 (p : Z) : Z := if 0 <=? p then 10 ^ p else 1.

(** The rounding interval of the double [m * 2^e], over a common
    denominator: [(lo, x, hi, den)] stands for [lo/den <= x/den <= hi/den].
    The lower half is narrower at a power of two. *)
Definition rounding_interval (m : positive) (e : Z) : Z * Z * Z * Z :=
  let u := 2 ^ Z.max e 0 in
  let den := 4 * 2 ^ Z.max (- e) 0 in
  let x := 4 * Z.pos m * u in
  let narrow := (Z.pos m =? 2 ^ 52) && (-1074 <? e) in
  (x - (if narrow then u else 2 * u), x, x + 2 * u, den).

(** The first [k' >= k] with [x/den < 10^k']. *)
Fixpoint decimal_exponent (fuel : nat) (x den k : Z) : Z :=
  match fuel with
  | O => k
  | S fuel' =>
      if x * pow10 (- k) <? den * pow10 k then k
      else decimal_exponent fuel' x den (k + 1)
  end.

Fixpoint strip_zeros_rev (s : list ascii) : list ascii :=
  match s with
  | "0"%char :: rest => strip_zeros_rev rest
  | _ => s
  end.

Definition strip_trailing_zeros (s : string) : string :=
  string_of_list_ascii (rev (strip_zeros_rev (rev (list_ascii_of_string s)))).

(** The [n]-digit decimals next to [x/den] that read back as the same
    double, the closer one first; [None] when neither does.  A decimal is
    the integer [c] in units of [10^(k-n)]. *)
Definition candidate (even : bool) (lo x hi den k : Z) (n : Z) : option Z :=
  let p := pow10 (k - n) in
  let q := pow10 (n - k) in
  let c := (x * q) / (den * p) in
  let inside c :=
    let v := c * den * p in
    if even then (lo * q <=? v) && (v <=? hi * q)
    else (lo * q <? v) && (v <? hi * q) in
  let dist c := Z.abs (c * den * p - x * q) in
  match inside c, inside (c + 1) with
  | false, false => None
  | true, false => Some c
  | false, true => Some (c + 1)
  | true, true =>
      match dist c ?= dist (c + 1) with
      | Lt => Some c
      | Gt => Some (c + 1)
      | Eq => if Z.even c then Some c else Some (c + 1)
      end
  end.

(** The shortest digit string that reads back as [m * 2^e], and the
    position of its decimal point: the value is [0.d1d2... * 10^decpt]. *)
Fixpoint shortest_from (fuel : nat) (even : bool) (lo x hi den k n : Z)
  : string * Z :=
  match fuel with
  | O => ("0", 0)
  | S fuel' =>
      match candidate even lo x hi den k n with
      | Some c =>
          let ds := str_nat c in
          (strip_trailing_zeros ds, k + (Z.of_nat (String.length ds) - n))
      | None => shortest_from fuel' even lo x hi den k (n + 1)
      end
  end.

(** The search for the decimal exponent [k], with [10^(k-1) <= x < 10^k],
    starts just below [log10 x], estimated from the binary logarithm. *)
Definition shortest_digits (m : positive) (e : Z) : string * Z :=
  let '(lo, x, hi, den) := rounding_interval m e in
  let b := Z.log2 x - Z.log2 den in
  let k := decimal_exponent 8 x den ((b - 1) * 30103 / 100000 - 1) in
  shortest_from 17 (Z.even (Z.pos m)) lo x hi den k 1.

Fixpoint zeros (n : nat) : string :=
  match n with
  | O => ""
  | S n' => String "0"%char (zeros n')
  end.

(** Layout of [repr]: positional for [-4 < decpt <= 16], else with an
    exponent of at least two digits. *)
Definition repr_layout (ds : string) (decpt : Z) : string :=
  let nd := Z.of_nat (String.length ds) in
  if (-4 <? decpt) && (decpt <=? 16) then
    if decpt <=? 0 then "0." ++ zeros (Z.to_nat (- decpt)) ++ ds
    else if decpt <? nd then
      substring 0 (Z.to_nat decpt) ds ++ "."
      ++ substring (Z.to_nat decpt) (Z.to_nat (nd - decpt)) ds
    else ds ++ zeros (Z.to_nat (decpt - nd)) ++ ".0"
  else
    let ex := decpt - 1 in
    let mant :=
      if 1 <? nd
      then substring 0 1 ds ++ "." ++ substring 1 (Z.to_nat (nd - 1)) ds
      else ds in
    let exs := str_nat (Z.abs ex) in
    mant ++ "e" ++ (if ex <? 0 then "-" else "+")
      ++ (if Z.abs ex <? 10 then "0" else "") ++ exs.

(** [repr(x)], which is also how an f-string renders [{x}]. *)
Definition float_repr (x : float) : string :=
  match Prim2SF x with
  | S754_nan => "nan"
  | S754_infinity s => if s then "-inf" else "inf"
  | S754_zero s => if s then "-0.0" else "0.0"
  | S754_finite s m e =>
      let '(ds, decpt) := shortest_digits m e in
      (if s then "-" else "") ++ repr_layout ds decpt
  end.

(** [needle in hay]. *)
Fixpoint contains (needle hay : string) : bool :=
  if String.prefix needle hay then true
  else match hay with
       | EmptyString => false
       | String _ rest => contains needle rest
       end.

(** *** The slice of pandas the script touches *)

(** A frame is its named columns; every column has one value per row. *)
Definition DataFrame : Type := list (string * list float).

(** [df.empty]: no column or no row. *)
Definition df_empty (df : DataFrame) : bool :=
  match df with
  | [] => true
  | (_, []) :: _ => true
  | (_, _ :: _) :: _ => false
  end.

(** [df[name]]. *)
Fixpoint df_getitem (df : DataFrame) (name : string) : result (list float) :=
  match df with
  | [] => Raise (Exception "KeyError" ("'" ++ name ++ "'"))
  | (k, col) :: rest => if String.eqb k name then Ok col else df_getitem rest name
  end.

(** [series.iloc[-1]]. *)
Fixpoint iloc_last (col : list float) : result float :=
  match col with
  | [] => Raise (Exception "IndexError" "single positional indexer is out-of-bounds")
  | [x] => Ok x
  | _ :: rest => iloc_last rest
  end.

(** *** JSON values of the webhook payload *)

Inductive json : Type :=
| JNull
| JBool (b : bool)
| JStr (s : string).

Definition json_of_str (s : option string) : json :=
  match s with
  | Some x => JStr x
  | None => JNull
  end.

End Py.

Import Py.

(** ** The outside world and the events of a run *)

Inductive level : Type := INFO | WARNING | ERROR.

(** What a run does that is visible from outside, in the order it happens.
    The last four constructors are observation points at the entry of (and
    return from) the script's own helpers; they let call counts and call
    arguments be stated. *)
Inductive event : Type :=
| Log (lv : level) (msg : string)
| Sleep (seconds : float)
| YfTicker (ticker : string)
| YfLastPrice (ticker : string)
| YfHistory (ticker : string) (period : string)
| GenaiModel (name : string)
| GenaiGenerate (name : string) (prompt : string)
| HttpPost (url : string) (payload : list (string * json)) (timeout : Z)
| Call_get_stock_price_safe (ticker : string)
| Ret_get_stock_price_safe (ticker : string) (price : float)
| Call_get_ai_analysis_safe (data_summary : string)
| Call_send_telegram (message : string).

(** The module globals read from the environment at import, the inbound
    query string, and the answers of every external party.  An answer may
    depend on all that happened before the call. *)
Record World : Type := {
  TELEGRAM_TOKEN : option string;
  CHAT_ID : option string;
  GEMINI_KEY : option string;
  request_args : list (string * string);
  random_uniform : list event -> float -> float -> float;
  yf_Ticker : list event -> string -> result unit;
  yf_last_price : list event -> string -> result (option float);
  yf_history : list event -> string -> string -> result DataFrame;
  genai_GenerativeModel : list event -> string -> result unit;
  genai_generate_text : list event -> string -> string -> result string;
  requests_post :
    list event -> string -> list (string * json) -> Z -> result unit
}.

(** A computation reads the world and the events so far, and yields its
    outcome and the events it added. *)
Definition M (A : Type) : Type := World -> list event -> result A * list event.

Definition ret {A : Type} (a : A) : M A := fun _ _ => (Ok a, []).

Definition bind {A B : Type} (m : M A) (k : A -> M B) : M B :=
  fun w h =>
    match m w h with
    | (Ok a, e1) => let (r, e2) := k a w (h ++ e1)%list in (r, (e1 ++ e2)%list)
    | (Raise e, e1) => (Raise e, e1)
    end.

(** [try: body except Exception as e: handler e]. *)
Definition try_except {A : Type} (body : M A) (handler : exn -> M A) : M A :=
  fun w h =>
    match body w h with
    | (Ok a, e1) => (Ok a, e1)
    | (Raise e, e1) =>
        let (r, e2) := handler e w (h ++ e1)%list in (r, (e1 ++ e2)%list)
    end.

Definition lift {A : Type} (r : result A) : M A := fun _ _ => (r, []).

Definition emit (e : event) : M unit := fun _ _ => (Ok tt, [e]).

Definition read {A : Type} (field : World -> A) : M A :=
  fun w _ => (Ok (field w), []).

(** A call that leaves the process: the event is recorded and the world
    answers from what it has seen before the call. *)
Definition external {A : Type} (e : event)
    (answer : World -> list event -> result A) : M A :=
  fun w h => (answer w h, [e]).

Declare Scope py_scope.
Delimit Scope py_scope with py.
Notation "x <- c1 ;; c2" := (bind c1 (fun x => c2))
  (at level 61, c1 at next level, right associativity) : py_scope.
Notation "' pat <- c1 ;; c2" :=
  (bind c1 (fun x => match x with pat => c2 end))
  (at level 61, pat pattern, c1 at next level, right associativity) : py_scope.
Notation "c1 ;; c2" := (bind c1 (fun _ => c2))
  (at level 61, right associativity) : py_scope.
Open Scope py_scope.

Definition logger_info (msg : string) : M unit := emit (Log INFO msg).
Definition logger_warning (msg : string) : M unit := emit (Log WARNING msg).
Definition logger_error (msg : string) : M unit := emit (Log ERROR msg).

(** [time.sleep(random.uniform(a, b))]; the draw lies between [a] and [b],
    so the sleep does not raise. *)
Definition sleep_uniform (a b : float) : M unit :=
  fun w h => (Ok tt, [Sleep (random_uniform w h a b)]).

(** ** main.py *)

(** [send_telegram(message)], lines 33-48. *)
Definition send_telegram (message : string) : M unit :=
  emit (Call_send_telegram message) ;;
  token <- read TELEGRAM_TOKEN ;;
  chat <- read CHAT_ID ;;
  if negb (truthy_str token) || negb (truthy_str chat) then
    logger_warning "Telegram Token 或 Chat ID 未設定，跳過發送"
  else
    try_except
      (let url := "https://api.telegram.org/bot" ++ format_str token
                  ++ "/sendMessage" in
       let payload :=
         [ ("chat_id", json_of_str chat);
           ("text", JStr message);
           ("parse_mode", JStr "Markdown");
           ("disable_web_page_preview", JBool true) ] in
       external (HttpPost url payload 10)
                (fun w h => requests_post w h url payload 10))
      (fun e => logger_error ("Telegram 發送失敗: " ++ str_exn e)).

(** The body of the [try] of [get_stock_price_safe], lines 57-70. *)
Definition fetch_price (ticker : string) : M float :=
  sleep_uniform 0.5 1.5 ;;
  external (YfTicker ticker) (fun w h => yf_Ticker w h ticker) ;;
  price <- external (YfLastPrice ticker) (fun w h => yf_last_price w h ticker) ;;
  price <-
    (if negb (truthy_float price) then
       hist <- external (YfHistory ticker "1d")
                        (fun w h => yf_history w h ticker "1d") ;;
       if negb (df_empty hist) then
         close <- lift (df_getitem hist "Close") ;;
         last <- lift (iloc_last close) ;;
         ret (Some last)
       else ret price
     else ret price) ;;
  if truthy_float price then lift (float_of price) else ret 0%float.

(** [get_stock_price_safe(ticker)], lines 50-73. *)
Definition get_stock_price_safe (ticker : string) : M float :=
  emit (Call_get_stock_price_safe ticker) ;;
  price <-
    try_except (fetch_price ticker)
      (fun e =>
         logger_warning ("獲取股價失敗 " ++ ticker ++ ": " ++ str_exn e) ;;
         ret 0%float) ;;
  emit (Ret_get_stock_price_safe ticker price) ;;
  ret price.

Definition ai_warning : string := "⚠️ AI Key 未設定，無法進行分析。".

Definition instruction : string :=
  "你是一位金融數據教學助理。請根據提供的股市數據，"
  ++ "用繁體中文撰寫一份客觀的數據摘要。" ++ LF
  ++ "⚠️ 規範：" ++ LF
  ++ "1. 僅描述數據事實 (如漲跌幅、RSI數值意義)。" ++ LF
  ++ "2. 嚴禁提供任何買賣建議或預測未來股價。" ++ LF
  ++ "3. 語氣保持中立、學術。" ++ LF
  ++ "數據如下：" ++ LF.

(** [get_ai_analysis_safe(data_summary)], lines 75-99. *)
Definition get_ai_analysis_safe (data_summary : string) : M string :=
  emit (Call_get_ai_analysis_safe data_summary) ;;
  key <- read GEMINI_KEY ;;
  if negb (truthy_str key) then ret ai_warning
  else
    try_except
      (external (GenaiModel "gemini-1.5-flash")
         (fun w h => genai_GenerativeModel w h "gemini-1.5-flash") ;;
       external (GenaiGenerate "gemini-1.5-flash" (instruction ++ data_summary))
         (fun w h => genai_generate_text w h "gemini-1.5-flash"
                       (instruction ++ data_summary)))
      (fun e => ret ("AI 分析暫時不可用 (" ++ str_exn e ++ ")")).

(** An entry of the watch list. *)
Record Position : Type := {
  symbol : string;
  cost : Z;
  shares : Z
}.

Definition demo_portfolio : list Position :=
  [ {| symbol := "2330.TW"; cost := 600; shares := 100 |};
    {| symbol := "AAPL"; cost := 150; shares := 10 |} ].

(** [request.args.get(key)]. *)
Fixpoint args_get (args : list (string * string)) (key : string)
  : option string :=
  match args with
  | [] => None
  | (k, v) :: rest => if String.eqb k key then Some v else args_get rest key
  end.

Definition send_requested (w : World) : bool :=
  match args_get (request_args w) "send" with
  | Some v => String.eqb v "true"
  | None => false
  end.

Definition report_header : string := "🎓 **FinBot 教學版演示報告**" ++ LF ++ LF.
Definition ai_header : string := LF ++ "🤖 **AI 數據摘要**：" ++ LF.
Definition disclaimer : string := LF ++ LF ++ "_此為教學專案，數據僅供參考_".
Definition sent_body : string := "已發送 Telegram 通知".

(** One turn of the [for] loop, lines 120-130, on the pair
    [(report, ai_data_context)]. *)
Definition loop_body (item : Position) (st : string * string)
  : M (string * string) :=
  let '(report, ai_data_context) := st in
  let symbol := symbol item in
  price <- get_stock_price_safe symbol ;;
  if (0 <? price)%float then
    diff <- lift (sub_fi price (cost item)) ;;
    ratio <- lift (truediv_fi diff (cost item)) ;;
    profit <- lift (mul_fi ratio 100) ;;
    let icon := if (0 <=? profit)%float then "🟢" else "🔴" in
    let line := icon ++ " " ++ symbol ++ ": 現價 " ++ format_f 2 price
                ++ " (損益 " ++ format_f 1 profit ++ "%)" ++ LF in
    ret (report ++ line,
         ai_data_context ++ symbol ++ ": 現價" ++ float_repr price
           ++ ", 成本" ++ str_int (cost item) ++ LF)
  else
    ret (report ++ "⚪ " ++ symbol ++ ": 無法獲取報價" ++ LF, ai_data_context).

(** The [for] loop, line 119. *)
Fixpoint for_items (items : list Position) (st : string * string)
  : M (string * string) :=
  match items with
  | [] => ret st
  | item :: rest => st' <- loop_body item st ;; for_items rest st'
  end.

(** The body of [demo_handler], lines 108-144, for a given watch list. *)
Definition handle (portfolio : list Position) : M (string * Z) :=
  logger_info "收到請求，開始執行教學演示..." ;;
  '(report, ai_data_context) <- for_items portfolio (report_header, "") ;;
  let report := report ++ ai_header in
  ai_comment <- get_ai_analysis_safe ai_data_context ;;
  let report := report ++ ai_comment in
  let report := report ++ disclaimer in
  send <- read send_requested ;;
  if send then
    send_telegram report ;;
    ret (sent_body, 200)
  else
    ret ("<pre>" ++ report ++ "</pre>", 200).

(** [demo_handler()], lines 103-144. *)
Definition demo_handler : M (string * Z) := handle demo_portfolio.

(** ** What a run did: projections of the event list *)

(** Arguments of the calls to [get_ai_analysis_safe], in order. *)
Definition analysis_calls (evs : list event) : list string :=
  flat_map (fun e => match e with
                     | Call_get_ai_analysis_safe d => [d]
                     | _ => []
                     end) evs.

(** Arguments of the calls to [send_telegram], in order. *)
Definition notifier_calls (evs : list event) : list string :=
  flat_map (fun e => match e with
                     | Call_send_telegram m => [m]
                     | _ => []
                     end) evs.

(** The outbound POSTs: url, JSON body and timeout, in order. *)
Definition http_posts (evs : list event)
  : list (string * list (string * json) * Z) :=
  flat_map (fun e => match e with
                     | HttpPost url payload timeout => [(url, payload, timeout)]
                     | _ => []
                     end) evs.

(** The inference service's part of a run: model construction and
    generation requests. *)
Definition inference_events (evs : list event) : list event :=
  filter (fun e => match e with
                   | GenaiModel _ | GenaiGenerate _ _ => true
                   | _ => false
                   end) evs.

(** The provider's part of a run: what was read from yfinance, in order. *)
Definition provider_reads (evs : list event) : list event :=
  filter (fun e => match e with
                   | YfTicker _ | YfLastPrice _ | YfHistory _ _ => true
                   | _ => false
                   end) evs.

(** The quotes the fetcher handed back, in order. *)
Definition fetched (evs : list event) : list (string * float) :=
  flat_map (fun e => match e with
                     | Ret_get_stock_price_safe t p => [(t, p)]
                     | _ => []
                     end) evs.

(** The log records of a given level, in order. *)
Definition logged (lv : level) (evs : list event) : list string :=
  flat_map (fun e => match e, lv with
                     | Log INFO m, INFO => [m]
                     | Log WARNING m, WARNING => [m]
                     | Log ERROR m, ERROR => [m]
                     | _, _ => []
                     end) evs.

(** ** The quote fetcher as the specification words it *)

(** The histories at which one fetch, started after [h], consults the
    provider: constructing the ticker object, reading the fast field,
    reading the one-day history. *)
Definition at_ticker (w : World) (h : list event) (t : string) : list event :=
  (h ++ [ Call_get_stock_price_safe t;
          Sleep (random_uniform w (h ++ [Call_get_stock_price_safe t]) 0.5 1.5) ])%list.

Definition at_fast (w : World) (h : list event) (t : string) : list event :=
  (at_ticker w h t ++ [YfTicker t])%list.

Definition at_history (w : World) (h : list event) (t : string) : list event :=
  (at_fast w h t ++ [YfLastPrice t])%list.

(** The fast field is empty when it is absent or zero. *)
Definition fast_empty (fast : option float) : bool :=
  match fast with
  | None => true
  | Some x => (x =? 0)%float
  end.

(** The most recent close of a history window, when it has one. *)
Definition latest_close (hist : DataFrame) : result (option float) :=
  if df_empty hist then Ok None
  else match df_getitem hist "Close" with
       | Raise e => Raise e
       | Ok col => match iloc_last col with
                   | Raise e => Raise e
                   | Ok c => Ok (Some c)
                   end
       end.

(** A price, or the sentinel for a missing or zero one. *)
Definition price_or_sentinel (p : option float) : float :=
  match p with
  | None => 0%float
  | Some x => if (x =? 0)%float then 0%float else x
  end.

(** Section 4.1: the fast field first, the latest close of a one-day
    window when the fast field is empty, the sentinel on any exception.
    The second component lists the provider reads, in order. *)
Definition quote_spec (w : World) (h : list event) (t : string)
  : float * list event :=
  match yf_Ticker w (at_ticker w h t) t with
  | Raise _ => (0%float, [YfTicker t])
  | Ok _ =>
      match yf_last_price w (at_fast w h t) t with
      | Raise _ => (0%float, [YfTicker t; YfLastPrice t])
      | Ok fast =>
          if fast_empty fast then
            (match yf_history w (at_history w h t) t "1d" with
             | Raise _ => 0%float
             | Ok hist =>
                 match latest_close hist with
                 | Raise _ => 0%float
                 | Ok None => 0%float
                 | Ok (Some c) => price_or_sentinel (Some c)
                 end
             end,
             [YfTicker t; YfLastPrice t; YfHistory t "1d"])
          else (price_or_sentinel fast, [YfTicker t; YfLastPrice t])
      end
  end.

(** Every figure the provider reports is a non-negative number. *)
Definition provider_nonneg (w : World) : Prop :=
  (forall h t v, yf_last_price w h t = Ok (Some v) -> (0 <=? v)%float = true) /\
  (forall h t period hist col v,
      yf_history w h t period = Ok hist ->
      df_getitem hist "Close" = Ok col ->
      In v col -> (0 <=? v)%float = true).

(** ** The report as the specification words it *)

(** The position's cost as the double the arithmetic sees. *)
Definition cost_float (item : Position) : float :=
  SF2Prim (binary_normalize prec emax (cost item) 0 false).

(** A cost the arithmetic accepts: within the range of doubles, and
    nonzero. *)
Definition cost_in_range (item : Position) : bool :=
  negb (is_infinity (cost_float item)).

Definition cost_nonzero (item : Position) : bool :=
  negb (cost_float item =? 0)%float.

Definition cost_usable (item : Position) : bool :=
  cost_in_range item && cost_nonzero item.

(** Section 4.4: [(price - cost) / cost * 100]. *)
Definition profit_pct (price c : float) : float :=
  ((price - c) / c * 100)%float.

(** The report line of a position quoted at [price]. *)
Definition position_line (item : Position) (price : float) : string :=
  if (0 <? price)%float then
    let profit := profit_pct price (cost_float item) in
    (if (0 <=? profit)%float then "🟢" else "🔴")
    ++ " " ++ symbol item ++ ": 現價 " ++ format_f 2 price
    ++ " (損益 " ++ format_f 1 profit ++ "%)" ++ LF
  else "⚪ " ++ symbol item ++ ": 無法獲取報價" ++ LF.

(** What a position quoted at [price] adds to the data summary. *)
Definition position_context (item : Position) (price : float) : string :=
  if (0 <? price)%float then
    symbol item ++ ": 現價" ++ float_repr price
    ++ ", 成本" ++ str_int (cost item) ++ LF
  else "".

Fixpoint report_lines (quotes : list (Position * float)) : string :=
  match quotes with
  | [] => ""
  | (item, price) :: rest => position_line item price ++ report_lines rest
  end.

Fixpoint data_summary_of (quotes : list (Position * float)) : string :=
  match quotes with
  | [] => ""
  | (item, price) :: rest =>
      position_context item price ++ data_summary_of rest
  end.

(** The finished report for the given quotes and analysis text. *)
Definition full_report (quotes : list (Position * float)) (ai_comment : string)
  : string :=
  report_header ++ report_lines quotes ++ ai_header ++ ai_comment ++ disclaimer.

(** ** Worlds used to run the program *)

Definition unreachable : exn := Exception "ConnectionError" "network is unreachable".

(** Nothing configured, no query string; the provider knows 2330.TW at 660
    and fails for every other ticker. *)
Definition bare_world : World := {|
  TELEGRAM_TOKEN := None;
  CHAT_ID := None;
  GEMINI_KEY := None;
  request_args := [];
  random_uniform := fun _ a _ => a;
  yf_Ticker := fun _ _ => Ok tt;
  yf_last_price := fun _ t =>
    if String.eqb t "2330.TW" then Ok (Some 660%float) else Raise unreachable;
  yf_history := fun _ _ _ => Raise unreachable;
  genai_GenerativeModel := fun _ _ => Ok tt;
  genai_generate_text := fun _ _ _ => Raise unreachable;
  requests_post := fun _ _ _ _ => Raise unreachable
|}.

(** All three credentials set, [?send=true]; the provider has no fast
    figure and a one-day window closing at 150.5; the webhook fails. *)
Definition configured_world : World := {|
  TELEGRAM_TOKEN := Some "123456:ABC";
  CHAT_ID := Some "42";
  GEMINI_KEY := Some "key";
  request_args := [("send", "true")];
  random_uniform := fun _ _ b => b;
  yf_Ticker := fun _ _ => Ok tt;
  yf_last_price := fun _ _ => Ok None;
  yf_history := fun _ _ _ =>
    Ok [("Open", [149%float]); ("Close", [150.5%float])];
  genai_GenerativeModel := fun _ _ => Ok tt;
  genai_generate_text := fun _ _ _ => Ok "summary";
  requests_post := fun _ _ _ _ => Raise unreachable
|}.

(** Nothing configured, no query string; the provider answers every ticker
    with the same fast figure and the same closes. *)
Definition provider_world (fast : option float) (closes : list float) : World := {|
  TELEGRAM_TOKEN := None;
  CHAT_ID := None;
  GEMINI_KEY := None;
  request_args := [];
  random_uniform := fun _ a _ => a;
  yf_Ticker := fun _ _ => Ok tt;
  yf_last_price := fun _ _ => Ok fast;
  yf_history := fun _ _ _ => Ok [("Close", closes)];
  genai_GenerativeModel := fun _ _ => Ok tt;
  genai_generate_text := fun _ _ _ => Ok "summary";
  requests_post := fun _ _ _ _ => Ok tt
|}.

(** A negative fast figure, as for a futures contract settling below
    zero. *)
Definition negative_world : World := provider_world (Some (-37.5)%float) [].

(** No fast figure and a window whose latest close is not yet filled in. *)
Definition nan_close_world : World := provider_world None [150.5%float; nan].

(** A provider that is down: every read raises. *)
Definition offline_world : World := {|
  TELEGRAM_TOKEN := None;
  CHAT_ID := None;
  GEMINI_KEY := None;
  request_args := [];
  random_uniform := fun _ a _ => a;
  yf_Ticker := fun _ _ => Ok tt;
  yf_last_price := fun _ _ => Raise unreachable;
  yf_history := fun _ _ _ => Raise unreachable;
  genai_GenerativeModel := fun _ _ => Ok tt;
  genai_generate_text := fun _ _ _ => Raise unreachable;
  requests_post := fun _ _ _ _ => Raise unreachable
|}.

Definition tsmc : Position := {| symbol := "2330.TW"; cost := 600; shares := 100 |}.

(** ** Further observations on a run *)

(** The delays slept, in order. *)
Definition sleeps (evs : list event) : list float :=
  flat_map (fun e => match e with
                     | Sleep d => [d]
                     | _ => []
                     end) evs.

(** What each helper may add to a run. *)
Definition fetcher_event (e : event) : bool :=
  match e with
  | Call_get_stock_price_safe _ | Ret_get_stock_price_safe _ _
  | Sleep _ | YfTicker _ | YfLastPrice _ | YfHistory _ _
  | Log WARNING _ => true
  | _ => false
  end.

Definition analysis_event (e : event) : bool :=
  match e with
  | Call_get_ai_analysis_safe _ | GenaiModel _ | GenaiGenerate _ _ => true
  | _ => false
  end.

Definition notifier_event (e : event) : bool :=
  match e with
  | Call_send_telegram _ | HttpPost _ _ _
  | Log WARNING _ | Log ERROR _ => true
  | _ => false
  end.

(** The text returned when the inference service fails, line 99. *)
Definition fallback_text (e : exn) : string :=
  "AI 分析暫時不可用 (" ++ str_exn e ++ ")".

(** The warning logged when a fetch fails, line 72. *)
Definition fetch_warning (ticker : string) (e : exn) : string :=
  "獲取股價失敗 " ++ ticker ++ ": " ++ str_exn e.

(** Lines 28-29, run once at import: the keys [genai.configure] is called
    with. *)
Definition configured_keys (w : World) : list string :=
  if truthy_str (GEMINI_KEY w) then [format_str (GEMINI_KEY w)] else [].

(** A key is set and the inference service is down. *)
Definition failing_inference_world : World := {|
  TELEGRAM_TOKEN := None;
  CHAT_ID := None;
  GEMINI_KEY := Some "key";
  request_args := [];
  random_uniform := fun _ a _ => a;
  yf_Ticker := fun _ _ => Ok tt;
  yf_last_price := fun _ _ => Ok (Some 660%float);
  yf_history := fun _ _ _ => Ok [];
  genai_GenerativeModel := fun _ _ => Ok tt;
  genai_generate_text := fun _ _ _ => Raise (Exception "ResourceExhausted" "429 quota exceeded");
  requests_post := fun _ _ _ _ => Ok tt
|}.

(** [?send=true] on a deployment without messaging credentials. *)
Definition send_unconfigured_world : World := {|
  TELEGRAM_TOKEN := None;
  CHAT_ID := Some "42";
  GEMINI_KEY := None;
  request_args := [("send", "true")];
  random_uniform := fun _ a _ => a;
  yf_Ticker := fun _ _ => Ok tt;
  yf_last_price := fun _ _ => Ok (Some 660%float);
  yf_history := fun _ _ _ => Ok [];
  genai_GenerativeModel := fun _ _ => Ok tt;
  genai_generate_text := fun _ _ _ => Ok "summary";
  requests_post := fun _ _ _ _ => Ok tt
|}.

(** A position entered with a cost of zero. *)
Definition gift : Position := {| symbol := "2330.TW"; cost := 0; shares := 1 |}.

(** The exception a fetch started after [h] runs into, if any: the first
    of the ticker construction, the fast-field read, the history read and
    the access to the latest close that raises.  The history is only
    consulted when the fast field is empty. *)
Definition fetch_failure (w : World) (h : list event) (t : string)
  : option exn :=
  match yf_Ticker w (at_ticker w h t) t with
  | Raise e => Some e
  | Ok _ =>
      match yf_last_price w (at_fast w h t) t with
      | Raise e => Some e
      | Ok fast =>
          if fast_empty fast then
            match yf_history w (at_history w h t) t "1d" with
            | Raise e => Some e
            | Ok hist =>
                match latest_close hist with
                | Raise e => Some e
                | Ok _ => None
                end
            end
          else None
      end
  end.

(** A watch list of three positions. *)
Definition wide_portfolio : list Position :=
  [ {| symbol := "2330.TW"; cost := 600; shares := 100 |};
    {| symbol := "AAPL"; cost := 150; shares := 10 |};
    {| symbol := "MSFT"; cost := 300; shares := 5 |} ].

(** ** Properties *)

(** Report text stays as written while runs are unfolded. *)
#[local] Arguments String.append : simpl never.

(** *** The notifier *)

(** C5. When the bot credential or the destination identifier is missing
    ([None] or empty), [send_telegram] returns normally, having logged the
    warning and issued no POST. *)
Theorem send_telegram_skips_without_credentials :
  forall (w : World) (h : list event) (message : string),
    truthy_str (TELEGRAM_TOKEN w) = false \/ truthy_str (CHAT_ID w) = false ->
    exists evs,
      send_telegram message w h = (Ok tt, evs) /\
      http_posts evs = [] /\
      logged WARNING evs = ["Telegram Token 或 Chat ID 未設定，跳過發送"] /\
      evs = [ Call_send_telegram message;
              Log WARNING "Telegram Token 或 Chat ID 未設定，跳過發送" ].
Proof.
  intros w h message Hmiss.
  eexists. unfold send_telegram, bind, read, emit, logger_warning. simpl.
  assert (Hguard : negb (truthy_str (TELEGRAM_TOKEN w))
                   || negb (truthy_str (CHAT_ID w)) = true).
  { destruct Hmiss as [Ht | Hc].
    - rewrite Ht. reflexivity.
    - rewrite Hc. apply orb_true_r. }
  rewrite Hguard. simpl. repeat split.
Qed.

Lemma send_telegram_skips_without_credentials_witness :
  exists evs,
    send_telegram "report" bare_world [] = (Ok tt, evs) /\
    http_posts evs = [] /\
    logged WARNING evs = ["Telegram Token 或 Chat ID 未設定，跳過發送"] /\
    evs = [ Call_send_telegram "report";
            Log WARNING "Telegram Token 或 Chat ID 未設定，跳過發送" ].
Proof.
  apply (send_telegram_skips_without_credentials bare_world [] "report").
  left. reflexivity.
Defined.

(** C9. With both credentials present, [send_telegram] issues exactly one
    POST: to the bot URL built from the token, with the four-field JSON
    body and a 10-second timeout.  If the POST raises, the error is logged
    and the call still returns normally. *)
Theorem send_telegram_posts_once :
  forall (w : World) (h : list event) (message token chat : string),
    TELEGRAM_TOKEN w = Some token -> token <> "" ->
    CHAT_ID w = Some chat -> chat <> "" ->
    let url := "https://api.telegram.org/bot" ++ token ++ "/sendMessage" in
    let payload :=
      [ ("chat_id", JStr chat);
        ("text", JStr message);
        ("parse_mode", JStr "Markdown");
        ("disable_web_page_preview", JBool true) ] in
    exists evs,
      send_telegram message w h = (Ok tt, evs) /\
      http_posts evs = [(url, payload, 10)] /\
      map fst payload
        = ["chat_id"; "text"; "parse_mode"; "disable_web_page_preview"] /\
      match requests_post w (h ++ [Call_send_telegram message])%list
                          url payload 10 with
      | Ok _ => evs = [Call_send_telegram message; HttpPost url payload 10]
      | Raise e =>
          evs = [ Call_send_telegram message;
                  HttpPost url payload 10;
                  Log ERROR ("Telegram 發送失敗: " ++ str_exn e) ]
      end.
Proof.
  intros w h message token chat Ht Hne Hc Hnec url payload.
  unfold send_telegram, bind, read, emit, try_except, external, logger_error.
  simpl. rewrite Ht, Hc. simpl.
  destruct token as [| a token']; [congruence |].
  destruct chat as [| b chat']; [congruence |].
  simpl. rewrite !app_nil_r.
  fold url. fold payload.
  destruct (requests_post w (h ++ [Call_send_telegram message])%list url payload 10)
    as [[] | e]; simpl; eexists; repeat split.
Qed.

Lemma send_telegram_posts_once_witness :
  exists evs,
    send_telegram "report" configured_world [] = (Ok tt, evs) /\
    http_posts evs =
      [ ("https://api.telegram.org/bot123456:ABC/sendMessage",
         [ ("chat_id", JStr "42");
           ("text", JStr "report");
           ("parse_mode", JStr "Markdown");
           ("disable_web_page_preview", JBool true) ],
         10) ] /\
    logged ERROR evs = ["Telegram 發送失敗: network is unreachable"].
Proof.
  destruct (send_telegram_posts_once configured_world [] "report"
              "123456:ABC" "42" eq_refl ltac:(discriminate)
              eq_refl ltac:(discriminate))
    as [evs [Hrun [Hposts [_ Hevs]]]].
  exists evs. split; [exact Hrun |]. split; [exact Hposts |].
  simpl in Hevs. rewrite Hevs. reflexivity.
Defined.

(** *** The analysis requester *)

(** C4. When [GEMINI_KEY] is absent ([None] or empty),
    [get_ai_analysis_safe] returns the fixed warning string; the run holds
    no model construction and no generation request. *)
Theorem analysis_without_key_is_warning :
  forall (w : World) (h : list event) (data_summary : string),
    truthy_str (GEMINI_KEY w) = false ->
    exists evs,
      get_ai_analysis_safe data_summary w h
        = (Ok "⚠️ AI Key 未設定，無法進行分析。", evs) /\
      inference_events evs = [] /\
      evs = [Call_get_ai_analysis_safe data_summary].
Proof.
  intros w h data_summary Hkey.
  unfold get_ai_analysis_safe, bind, read, emit. simpl.
  rewrite Hkey. simpl.
  eexists. repeat split.
Qed.

Lemma analysis_without_key_is_warning_witness :
  exists evs,
    get_ai_analysis_safe "AAPL: 現價1.0, 成本150" bare_world []
      = (Ok "⚠️ AI Key 未設定，無法進行分析。", evs) /\
    inference_events evs = [] /\
    evs = [Call_get_ai_analysis_safe "AAPL: 現價1.0, 成本150"].
Proof.
  apply (analysis_without_key_is_warning bare_world []).
  reflexivity.
Defined.

(** With a key, the requester never raises either: a failure of the
    service becomes the fallback text. *)
Lemma get_ai_analysis_safe_total :
  forall (w : World) (h : list event) (data_summary : string),
    exists text evs,
      get_ai_analysis_safe data_summary w h
        = (Ok text, Call_get_ai_analysis_safe data_summary :: evs) /\
      analysis_calls evs = [] /\ notifier_calls evs = [] /\
      http_posts evs = [] /\ fetched evs = [].
Proof.
  intros w h data_summary.
  unfold get_ai_analysis_safe, bind, read, emit, try_except, external, ret.
  simpl.
  destruct (truthy_str (GEMINI_KEY w)); simpl.
  - destruct (genai_GenerativeModel w _ _) as [[] | e]; simpl.
    + destruct (genai_generate_text w _ _ _) as [text | e]; simpl;
        do 2 eexists; repeat split.
    + do 2 eexists; repeat split.
  - do 2 eexists; repeat split.
Qed.

(** *** The quote fetcher *)

Lemma iloc_last_In :
  forall (col : list float) (v : float), iloc_last col = Ok v -> In v col.
Proof.
  induction col as [| x rest IH]; intros v H.
  - discriminate.
  - destruct rest as [| y rest'].
    + injection H as <-. left. reflexivity.
    + right. apply IH. exact H.
Qed.

Ltac run_fetch :=
  unfold get_stock_price_safe, fetch_price, bind, try_except, external,
    emit, lift, ret, sleep_uniform, logger_warning;
  simpl; rewrite <- ?app_assoc; simpl.

Ltac tidy := simpl; rewrite <- ?app_assoc; simpl.

Ltac split_answer :=
  match goal with
  | H : ?x = _ |- context [match ?x with _ => _ end] => rewrite H; tidy
  | H : ?x = _ |- context [if ?x then _ else _] => rewrite H; tidy
  | H : ?x = _ |- context [negb ?x] => rewrite H; tidy
  | |- context [(?x =? 0)%float] =>
      destruct (x =? 0)%float eqn:?; tidy
  | |- context [if df_empty ?d then _ else _] =>
      destruct (df_empty d) eqn:?; tidy
  | |- context [negb (df_empty ?d)] =>
      destruct (df_empty d) eqn:?; tidy
  | |- context [match yf_Ticker ?w ?h ?t with _ => _ end] =>
      destruct (yf_Ticker w h t) as [[] | ?] eqn:?; tidy
  | |- context [match yf_last_price ?w ?h ?t with _ => _ end] =>
      destruct (yf_last_price w h t) as [[?|] | ?] eqn:?; tidy
  | |- context [match yf_history ?w ?h ?t ?p with _ => _ end] =>
      destruct (yf_history w h t p) as [? | ?] eqn:?; tidy
  | |- context [match df_getitem ?d ?n with _ => _ end] =>
      destruct (df_getitem d n) as [? | ?] eqn:?; tidy
  | |- context [match iloc_last ?c with _ => _ end] =>
      destruct (iloc_last c) as [? | ?] eqn:?; tidy
  end.

(** C6. [get_stock_price_safe] never raises.  It reads the fast field
    first, reads the one-day history only when the fast field is empty and
    then takes the latest close, and answers the sentinel when any provider
    read raises: its value and its provider reads are those of
    [quote_spec]. *)
Theorem get_stock_price_safe_meets_spec :
  forall (w : World) (h : list event) (ticker : string),
    exists evs,
      get_stock_price_safe ticker w h = (Ok (fst (quote_spec w h ticker)), evs) /\
      provider_reads evs = snd (quote_spec w h ticker).
Proof.
  intros w h ticker.
  unfold quote_spec, latest_close, price_or_sentinel, fast_empty,
    at_history, at_fast, at_ticker.
  run_fetch.
  repeat split_answer; eexists; split; reflexivity.
Qed.

Lemma fetch_offline_run :
  get_stock_price_safe "AAPL" offline_world []
  = (Ok 0%float,
     [ Call_get_stock_price_safe "AAPL"; Sleep 0.5; YfTicker "AAPL";
       YfLastPrice "AAPL";
       Log WARNING "獲取股價失敗 AAPL: network is unreachable";
       Ret_get_stock_price_safe "AAPL" 0 ]).
Proof. reflexivity. Qed.

Lemma fetch_fallback_run :
  get_stock_price_safe "AAPL" configured_world []
  = (Ok 150.5%float,
     [ Call_get_stock_price_safe "AAPL"; Sleep 1.5; YfTicker "AAPL";
       YfLastPrice "AAPL"; YfHistory "AAPL" "1d";
       Ret_get_stock_price_safe "AAPL" 150.5 ]).
Proof. reflexivity. Qed.

(** The fetcher always returns, and its run holds its own call and return
    and nothing of the analysis requester or the notifier. *)
Lemma get_stock_price_safe_total :
  forall (w : World) (h : list event) (ticker : string),
    exists price evs,
      get_stock_price_safe ticker w h = (Ok price, evs) /\
      analysis_calls evs = [] /\ notifier_calls evs = [] /\
      http_posts evs = [] /\ fetched evs = [(ticker, price)].
Proof.
  intros w h ticker.
  run_fetch.
  repeat split_answer; do 2 eexists; repeat split.
Qed.

(** C8, as stated, fails: a negative figure, or a close that is not a
    number, is handed back unchanged. *)
Lemma get_stock_price_safe_can_be_negative :
  (exists evs,
      get_stock_price_safe "CL=F" negative_world [] = (Ok (-37.5)%float, evs))
  /\ (0 <=? -37.5)%float = false
  /\ (exists evs,
        get_stock_price_safe "AAPL" nan_close_world [] = (Ok nan, evs))
  /\ (0 <=? nan)%float = false.
Proof.
  split; [eexists; reflexivity |].
  split; [reflexivity |].
  split; [eexists; reflexivity | reflexivity].
Qed.

(** C8, amended. When every figure the provider reports is a non-negative
    number, [get_stock_price_safe] returns a non-negative float for every
    ticker, without raising. *)
Theorem get_stock_price_safe_nonneg :
  forall (w : World) (h : list event) (ticker : string),
    provider_nonneg w ->
    exists price evs,
      get_stock_price_safe ticker w h = (Ok price, evs) /\
      (0 <=? price)%float = true.
Proof.
  intros w h ticker [Hfast Hclose].
  run_fetch.
  repeat split_answer; do 2 eexists; (split; [reflexivity |]);
    try reflexivity.
  - eapply Hclose; try eassumption. apply iloc_last_In. assumption.
  - eapply Hfast; eassumption.
  - eapply Hclose; try eassumption. apply iloc_last_In. assumption.
Qed.

Lemma provider_nonneg_bare_world : provider_nonneg bare_world.
Proof.
  split.
  - intros h t v H. simpl in H.
    destruct (String.eqb t "2330.TW"); [| discriminate].
    injection H as <-. reflexivity.
  - intros h t period hist col v H. discriminate H.
Defined.

Lemma get_stock_price_safe_nonneg_witness :
  exists price evs,
    get_stock_price_safe "2330.TW" bare_world [] = (Ok price, evs) /\
    (0 <=? price)%float = true.
Proof.
  apply (get_stock_price_safe_nonneg bare_world [] "2330.TW").
  exact provider_nonneg_bare_world.
Defined.

(** *** One position *)

Lemma string_app_assoc :
  forall s1 s2 s3 : string, (s1 ++ s2) ++ s3 = s1 ++ (s2 ++ s3).
Proof.
  induction s1 as [| a s1 IH]; intros s2 s3.
  - reflexivity.
  - change (String a ((s1 ++ s2) ++ s3) = String a (s1 ++ s2 ++ s3)).
    rewrite IH. reflexivity.
Qed.

Lemma string_app_nil_r : forall s : string, s ++ "" = s.
Proof.
  induction s as [| a s IH].
  - reflexivity.
  - change (String a (s ++ "") = String a s). rewrite IH. reflexivity.
Qed.

Lemma float_of_int_cost :
  forall item : Position,
    cost_in_range item = true ->
    float_of_int (cost item) = Ok (cost_float item).
Proof.
  intros item H. unfold cost_in_range in H. unfold float_of_int.
  fold (cost_float item).
  destruct (is_infinity (cost_float item)); [discriminate | reflexivity].
Qed.

Lemma float_of_int_100 : float_of_int 100 = Ok 100%float.
Proof. reflexivity. Qed.

(** The arithmetic of line 124 on a usable cost. *)
Lemma profit_arithmetic :
  forall (item : Position) (price : float),
    cost_in_range item = true -> cost_nonzero item = true ->
    sub_fi price (cost item) = Ok (price - cost_float item)%float /\
    truediv_fi (price - cost_float item)%float (cost item)
      = Ok ((price - cost_float item) / cost_float item)%float /\
    mul_fi ((price - cost_float item) / cost_float item)%float 100
      = Ok (profit_pct price (cost_float item)).
Proof.
  intros item price Hrange Hnz.
  unfold sub_fi, truediv_fi, mul_fi, profit_pct.
  rewrite (float_of_int_cost item Hrange), float_of_int_100.
  unfold cost_nonzero in Hnz.
  destruct (cost_float item =? 0)%float; [discriminate |].
  repeat split.
Qed.

(** C1. For a position whose cost is nonzero (and within the range of
    doubles) and whose fetched price is above 0, the loop body computes the
    profit as [(price - cost) / cost * 100] and appends the line that shows
    this value to one decimal place. *)
Theorem loop_body_profit_line :
  forall (w : World) (h : list event) (item : Position)
         (report ai_data_context : string) (price : float) (evs : list event),
    get_stock_price_safe (symbol item) w h = (Ok price, evs) ->
    (0 <? price)%float = true ->
    cost_in_range item = true ->
    cost_nonzero item = true ->
    let c := cost_float item in
    let profit := ((price - c) / c * 100)%float in
    let icon := if (0 <=? profit)%float then "🟢" else "🔴" in
    loop_body item (report, ai_data_context) w h
    = (Ok (report ++ icon ++ " " ++ symbol item ++ ": 現價 " ++ format_f 2 price
             ++ " (損益 " ++ format_f 1 profit ++ "%)" ++ LF,
           ai_data_context ++ symbol item ++ ": 現價" ++ float_repr price
             ++ ", 成本" ++ str_int (cost item) ++ LF),
       evs).
Proof.
  intros w h item report ctx price evs Hfetch Hpos Hrange Hnz c profit icon.
  destruct (profit_arithmetic item price Hrange Hnz) as [Hsub [Hdiv Hmul]].
  unfold loop_body, bind, lift, ret.
  rewrite Hfetch, Hpos. cbv beta iota. rewrite Hsub.
  cbv beta iota. rewrite Hdiv.
  cbv beta iota. rewrite Hmul.
  cbv beta iota zeta. rewrite !app_nil_r. reflexivity.
Qed.

Lemma loop_body_profit_line_witness :
  loop_body tsmc (report_header, "") bare_world []
  = (Ok (report_header ++ "🟢 2330.TW: 現價 660.00 (損益 10.0%)" ++ LF,
         "2330.TW: 現價660.0, 成本600" ++ LF),
     [ Call_get_stock_price_safe "2330.TW"; Sleep 0.5; YfTicker "2330.TW";
       YfLastPrice "2330.TW"; Ret_get_stock_price_safe "2330.TW" 660 ]).
Proof.
  exact (loop_body_profit_line bare_world [] tsmc report_header "" 660%float
           _ eq_refl eq_refl eq_refl eq_refl).
Defined.

(** C2. For a position whose fetch returns the sentinel 0.0, the loop body
    appends the unavailable line with the neutral icon and leaves the data
    summary as it was; nothing else happens, whatever the cost. *)
Theorem loop_body_unavailable_line :
  forall (w : World) (h : list event) (item : Position)
         (report ai_data_context : string) (evs : list event),
    get_stock_price_safe (symbol item) w h = (Ok 0%float, evs) ->
    loop_body item (report, ai_data_context) w h
    = (Ok (report ++ "⚪ " ++ symbol item ++ ": 無法獲取報價" ++ LF,
           ai_data_context),
       evs).
Proof.
  intros w h item report ctx evs Hfetch.
  unfold loop_body, bind, ret. rewrite Hfetch.
  change (0 <? 0)%float with false. simpl.
  rewrite app_nil_r. reflexivity.
Qed.

Lemma loop_body_unavailable_line_witness :
  loop_body {| symbol := "AAPL"; cost := 0; shares := 10 |}
            (report_header, "") offline_world []
  = (Ok (report_header ++ "⚪ AAPL: 無法獲取報價" ++ LF, ""),
     [ Call_get_stock_price_safe "AAPL"; Sleep 0.5; YfTicker "AAPL";
       YfLastPrice "AAPL";
       Log WARNING "獲取股價失敗 AAPL: network is unreachable";
       Ret_get_stock_price_safe "AAPL" 0 ]).
Proof.
  exact (loop_body_unavailable_line offline_world []
           {| symbol := "AAPL"; cost := 0; shares := 10 |}
           report_header "" _ eq_refl).
Defined.

(** C7, as stated, fails on the sign: in the scenario the line carries the
    green icon and the figure 10.0%, and no plus sign. *)
Lemma scenario_line_has_no_plus_sign :
  exists line ctx evs,
    loop_body tsmc ("", "") bare_world [] = (Ok (line, ctx), evs) /\
    fetched evs = [("2330.TW", 660%float)] /\
    contains "+10.0%" line = false /\
    contains "+" line = false.
Proof. do 3 eexists. repeat split; reflexivity. Qed.

(** C7, amended. For the position 2330.TW bought at 600 and quoted at
    660.0, the report line is the green icon, the price 660.00 and the
    profit 10.0%, written without a sign. *)
Theorem scenario_line_is_green_ten_percent :
  forall (w : World) (h : list event) (report ai_data_context : string)
         (evs : list event),
    get_stock_price_safe "2330.TW" w h = (Ok 660%float, evs) ->
    loop_body {| symbol := "2330.TW"; cost := 600; shares := 100 |}
              (report, ai_data_context) w h
    = (Ok (report ++ "🟢 2330.TW: 現價 660.00 (損益 10.0%)" ++ LF,
           ai_data_context ++ "2330.TW: 現價660.0, 成本600" ++ LF),
       evs).
Proof.
  intros w h report ctx evs Hfetch.
  unfold loop_body, bind, lift, ret.
  change (symbol {| symbol := "2330.TW"; cost := 600; shares := 100 |})
    with "2330.TW".
  rewrite Hfetch.
  change (0 <? 660)%float with true. cbv beta iota.
  change (sub_fi 660 (cost {| symbol := "2330.TW"; cost := 600; shares := 100 |}))
    with (Ok 60%float : result float).
  cbv beta iota.
  change (truediv_fi 60 (cost {| symbol := "2330.TW"; cost := 600; shares := 100 |}))
    with (Ok (60 / 600)%float : result float).
  cbv beta iota.
  change (mul_fi (60 / 600)%float 100) with (Ok 10%float : result float).
  cbv beta iota zeta.
  change (0 <=? 10)%float with true. cbv beta iota.
  change (format_f 2 660) with "660.00".
  change (format_f 1 10) with "10.0".
  change (float_repr 660) with "660.0".
  change (str_int (cost {| symbol := "2330.TW"; cost := 600; shares := 100 |}))
    with "600".
  rewrite !app_nil_r.
  repeat f_equal.
Qed.

Lemma scenario_line_is_green_ten_percent_witness :
  exists evs,
    loop_body tsmc (report_header, "") bare_world []
    = (Ok (report_header ++ "🟢 2330.TW: 現價 660.00 (損益 10.0%)" ++ LF,
           "" ++ "2330.TW: 現價660.0, 成本600" ++ LF),
       evs).
Proof.
  eexists.
  apply (scenario_line_is_green_ten_percent bare_world [] report_header "").
  reflexivity.
Defined.

(** *** The whole request *)

(** The notifier always returns, with at most one POST. *)
Lemma send_telegram_total :
  forall (w : World) (h : list event) (message : string),
    exists evs,
      send_telegram message w h = (Ok tt, Call_send_telegram message :: evs) /\
      analysis_calls evs = [] /\ notifier_calls evs = [] /\
      fetched evs = [] /\ (List.length (http_posts evs) <= 1)%nat.
Proof.
  intros w h message.
  unfold send_telegram, bind, read, emit, try_except, external,
    logger_warning, logger_error.
  simpl.
  destruct (negb (truthy_str (TELEGRAM_TOKEN w))
            || negb (truthy_str (CHAT_ID w))); simpl.
  - eexists. repeat split. simpl. lia.
  - destruct (requests_post w _ _ _ _) as [[] | e]; simpl;
      eexists; repeat split; simpl; lia.
Qed.

(** Once the quote is known, a turn of the loop is the line and the
    summary entry of the specification; a price that is not above 0 never
    reaches the arithmetic. *)
Lemma loop_body_after_fetch :
  forall (w : World) (h : list event) (item : Position)
         (report ctx : string) (price : float) (evs : list event),
    get_stock_price_safe (symbol item) w h = (Ok price, evs) ->
    cost_usable item = true \/ (0 <? price)%float = false ->
    loop_body item (report, ctx) w h
    = (Ok (report ++ position_line item price,
           ctx ++ position_context item price), evs).
Proof.
  intros w h item report ctx price evs Hfetch Hcase.
  unfold loop_body, bind, lift, ret, position_line, position_context.
  rewrite Hfetch.
  destruct (0 <? price)%float eqn:Hpos.
  - destruct Hcase as [Husable | Hneg]; [| discriminate].
    unfold cost_usable in Husable. apply andb_prop in Husable.
    destruct Husable as [Hrange Hnz].
    destruct (profit_arithmetic item price Hrange Hnz) as [Hsub [Hdiv Hmul]].
    cbv beta iota. rewrite Hsub.
    cbv beta iota. rewrite Hdiv.
    cbv beta iota. rewrite Hmul.
    cbv beta iota zeta. rewrite !app_nil_r. reflexivity.
  - cbv beta iota. rewrite app_nil_r, string_app_nil_r. reflexivity.
Qed.

Lemma loop_body_total :
  forall (w : World) (h : list event) (item : Position) (report ctx : string),
    cost_usable item = true ->
    exists price evs,
      loop_body item (report, ctx) w h
      = (Ok (report ++ position_line item price,
             ctx ++ position_context item price), evs) /\
      analysis_calls evs = [] /\ notifier_calls evs = [] /\
      http_posts evs = [] /\ fetched evs = [(symbol item, price)].
Proof.
  intros w h item report ctx Husable.
  destruct (get_stock_price_safe_total w h (symbol item))
    as [price [evs [Hfetch Hfoot]]].
  exists price, evs. split; [| exact Hfoot].
  apply loop_body_after_fetch; [exact Hfetch | left; exact Husable].
Qed.

(** The loop yields one line per position, in order, and fetches each
    position's quote once. *)
Lemma for_items_total :
  forall (items : list Position) (w : World) (h : list event)
         (report ctx : string),
    forallb cost_usable items = true ->
    exists prices evs,
      List.length prices = List.length items /\
      for_items items (report, ctx) w h
      = (Ok (report ++ report_lines (combine items prices),
             ctx ++ data_summary_of (combine items prices)), evs) /\
      analysis_calls evs = [] /\ notifier_calls evs = [] /\
      http_posts evs = [] /\
      fetched evs = combine (map symbol items) prices.
Proof.
  induction items as [| item rest IH]; intros w h report ctx Hall.
  - exists [], []. simpl. unfold ret.
    rewrite !string_app_nil_r. repeat split.
  - simpl in Hall. apply andb_prop in Hall. destruct Hall as [Hitem Hrest].
    destruct (loop_body_total w h item report ctx Hitem)
      as [price [evs1 [Hbody [Ha1 [Hn1 [Hp1 Hf1]]]]]].
    destruct (IH w (h ++ evs1)%list (report ++ position_line item price)
                 (ctx ++ position_context item price) Hrest)
      as [prices [evs2 [Hlen [Hloop [Ha2 [Hn2 [Hp2 Hf2]]]]]]].
    exists (price :: prices), (evs1 ++ evs2)%list.
    split; [simpl; rewrite Hlen; reflexivity |].
    split.
    + change (for_items (item :: rest) (report, ctx) w h)
        with (bind (loop_body item (report, ctx))
                   (fun st' => for_items rest st') w h).
      unfold bind. rewrite Hbody, Hloop.
      simpl. rewrite !string_app_assoc. reflexivity.
    + unfold analysis_calls, notifier_calls, http_posts, fetched in *.
      rewrite !flat_map_app, Ha1, Ha2, Hn1, Hn2, Hp1, Hp2, Hf1, Hf2.
      repeat split.
Qed.

(** When no fetched price is above 0, the data summary is empty. *)
Lemma data_summary_of_unavailable :
  forall (items : list Position) (prices : list float),
    (forall p, In p prices -> (0 <? p)%float = false) ->
    data_summary_of (combine items prices) = "".
Proof.
  induction items as [| item rest IH]; intros prices Hall.
  - reflexivity.
  - destruct prices as [| p prices']; [reflexivity |].
    simpl. unfold position_context.
    rewrite (Hall p (or_introl eq_refl)).
    rewrite IH; [reflexivity |].
    intros q Hq. apply Hall. right. exact Hq.
Qed.

Lemma demo_portfolio_usable : forallb cost_usable demo_portfolio = true.
Proof. reflexivity. Qed.

(** A request from start to finish, for a watch list of usable costs: the
    loop, one call of the analysis requester on the data summary, and then
    either the notifier and the confirmation, or the report itself. *)
Lemma handle_run :
  forall (portfolio : list Position) (w : World) (h : list event),
    forallb cost_usable portfolio = true ->
    exists prices loop_evs ai_comment ai_evs send_evs,
      let quotes := combine portfolio prices in
      let report := full_report quotes ai_comment in
      List.length prices = List.length portfolio /\
      fetched loop_evs = combine (map symbol portfolio) prices /\
      analysis_calls loop_evs = [] /\ notifier_calls loop_evs = [] /\
      http_posts loop_evs = [] /\
      analysis_calls ai_evs = [] /\ notifier_calls ai_evs = [] /\
      http_posts ai_evs = [] /\ fetched ai_evs = [] /\
      analysis_calls send_evs = [] /\ notifier_calls send_evs = [] /\
      fetched send_evs = [] /\ (List.length (http_posts send_evs) <= 1)%nat /\
      handle portfolio w h
      = if send_requested w then
          (Ok (sent_body, 200),
           (Log INFO "收到請求，開始執行教學演示..." :: loop_evs
            ++ Call_get_ai_analysis_safe (data_summary_of quotes) :: ai_evs
            ++ Call_send_telegram report :: send_evs)%list)
        else
          (Ok ("<pre>" ++ report ++ "</pre>", 200),
           (Log INFO "收到請求，開始執行教學演示..." :: loop_evs
            ++ Call_get_ai_analysis_safe (data_summary_of quotes) :: ai_evs)%list).
Proof.
  intros portfolio w h Hall.
  set (h1 := (h ++ [Log INFO "收到請求，開始執行教學演示..."])%list).
  destruct (for_items_total portfolio w h1 report_header "" Hall)
    as [prices [loop_evs [Hlen [Hloop [Ha1 [Hn1 [Hp1 Hf1]]]]]]].
  set (quotes := combine portfolio prices) in *.
  destruct (get_ai_analysis_safe_total w (h1 ++ loop_evs)%list
              (data_summary_of quotes))
    as [ai_comment [ai_evs [Hai [Ha2 [Hn2 [Hp2 Hf2]]]]]].
  set (h2 := (h1 ++ loop_evs
              ++ Call_get_ai_analysis_safe (data_summary_of quotes) :: ai_evs)%list).
  destruct (send_telegram_total w h2 (full_report quotes ai_comment))
    as [send_evs [Hsend [Ha3 [Hn3 [Hf3 Hp3]]]]].
  exists prices, loop_evs, ai_comment, ai_evs, send_evs.
  cbv zeta. fold quotes.
  repeat (split; [assumption |]).
  unfold handle, bind, logger_info, emit, read, ret.
  fold h1. rewrite Hloop.
  change ("" ++ data_summary_of quotes) with (data_summary_of quotes).
  rewrite Hai.
  rewrite <- !app_assoc. simpl app. rewrite !app_nil_r.
  fold h2.
  assert (Hreport :
    (((report_header ++ report_lines quotes) ++ ai_header) ++ ai_comment)
      ++ disclaimer = full_report quotes ai_comment).
  { unfold full_report. rewrite !string_app_assoc. reflexivity. }
  rewrite Hreport.
  destruct (send_requested w).
  - rewrite Hsend. rewrite ?app_nil_r. reflexivity.
  - rewrite ?app_nil_r. reflexivity.
Qed.

(** The request of [configured_world]: the fast field is empty, both
    quotes come from the history window, the report goes to the webhook
    once, and the failed POST still ends in a 200. *)
Lemma demo_handler_configured_run :
  exists evs,
    demo_handler configured_world [] = (Ok ("已發送 Telegram 通知", 200), evs) /\
    fetched evs = [("2330.TW", 150.5%float); ("AAPL", 150.5%float)] /\
    List.length (http_posts evs) = 1%nat /\
    logged ERROR evs = ["Telegram 發送失敗: network is unreachable"].
Proof. eexists. repeat split; reflexivity. Qed.

(** C10. Every request calls the analysis requester exactly once, after
    the quotes of all positions have been fetched and before anything
    else; when every fetch returned the sentinel, the call's argument is
    the empty string. *)
Theorem demo_handler_calls_analysis_once :
  forall (w : World) (h : list event),
    exists result evs before after prices,
      let data_summary := data_summary_of (combine demo_portfolio prices) in
      demo_handler w h = (Ok result, evs) /\
      evs = (before ++ Call_get_ai_analysis_safe data_summary :: after)%list /\
      analysis_calls evs = [data_summary] /\
      fetched before = combine (map symbol demo_portfolio) prices /\
      List.length prices = List.length demo_portfolio /\
      fetched after = [] /\
      ((forall p, In p prices -> p = 0%float) -> data_summary = "").
Proof.
  intros w h.
  destruct (handle_run demo_portfolio w h demo_portfolio_usable)
    as [prices [loop_evs [ai_comment [ai_evs [send_evs H]]]]].
  cbv zeta in H.
  destruct H as [Hlen [Hf1 [Ha1 [_ [_ [Ha2 [_ [_ [Hf2 [Ha3 [_ [Hf3 [_ Hrun]]]]]]]]]]]]].
  unfold demo_handler.
  assert (Hempty :
    (forall p, In p prices -> p = 0%float) ->
    data_summary_of (combine demo_portfolio prices) = "").
  { intros Hzero. apply data_summary_of_unavailable.
    intros p Hp. rewrite (Hzero p Hp). reflexivity. }
  destruct (send_requested w).
  - eexists _, _, (Log INFO "收到請求，開始執行教學演示..." :: loop_evs),
      (ai_evs ++ Call_send_telegram _ :: send_evs)%list, prices.
    cbv zeta.
    split; [exact Hrun |].
    split; [reflexivity |].
    unfold analysis_calls, fetched in *.
    simpl flat_map. rewrite !flat_map_app. simpl flat_map.
    rewrite !flat_map_app. simpl flat_map.
    rewrite Ha1, Ha2, Ha3, Hf2, Hf3.
    repeat split; assumption.
  - eexists _, _, (Log INFO "收到請求，開始執行教學演示..." :: loop_evs),
      ai_evs, prices.
    cbv zeta.
    split; [exact Hrun |].
    split; [reflexivity |].
    unfold analysis_calls, fetched in *.
    simpl flat_map. rewrite !flat_map_app. simpl flat_map.
    rewrite Ha1, Ha2.
    repeat split; assumption.
Qed.

(** The request of [offline_world]: both fetches give the sentinel, both
    lines read unavailable, and the analysis requester is still called,
    once, with the empty summary. *)
Lemma demo_handler_offline_run :
  exists body evs,
    demo_handler offline_world [] = (Ok (body, 200), evs) /\
    fetched evs = [("2330.TW", 0%float); ("AAPL", 0%float)] /\
    analysis_calls evs = [""] /\
    body = "<pre>" ++ report_header
           ++ "⚪ 2330.TW: 無法獲取報價" ++ LF
           ++ "⚪ AAPL: 無法獲取報價" ++ LF
           ++ ai_header ++ ai_warning ++ disclaimer ++ "</pre>".
Proof. do 2 eexists. repeat split; reflexivity. Qed.

(** ** Further properties *)

(** *** The analysis requester with a key *)

(** X1. With a key set, [get_ai_analysis_safe] never raises.  It builds the
    model gemini-1.5-flash once and, when that succeeds, sends one request
    whose prompt is the fixed instruction followed by the data summary; it
    returns the service's text, or the fallback text carrying the error
    when either step raises. *)
Theorem analysis_with_key_asks_once :
  forall (w : World) (h : list event) (data_summary : string),
    truthy_str (GEMINI_KEY w) = true ->
    let name := "gemini-1.5-flash" in
    let prompt := instruction ++ data_summary in
    let called := Call_get_ai_analysis_safe data_summary in
    exists text evs,
      get_ai_analysis_safe data_summary w h = (Ok text, evs) /\
      match genai_GenerativeModel w (h ++ [called])%list name with
      | Raise e =>
          text = fallback_text e /\ evs = [called; GenaiModel name]
      | Ok _ =>
          evs = [called; GenaiModel name; GenaiGenerate name prompt] /\
          match genai_generate_text w (h ++ [called; GenaiModel name])%list
                                    name prompt with
          | Ok answer => text = answer
          | Raise e => text = fallback_text e
          end
      end.
Proof.
  intros w h data_summary Hkey name prompt called.
  unfold get_ai_analysis_safe, bind, read, emit, try_except, external, ret.
  simpl. rewrite Hkey. simpl. rewrite !app_nil_r.
  fold name. fold prompt. fold called.
  destruct (genai_GenerativeModel w (h ++ [called])%list name) as [[] | e];
    simpl.
  - rewrite <- app_assoc. simpl.
    destruct (genai_generate_text w (h ++ [called; GenaiModel name])%list
                                  name prompt) as [answer | e]; simpl;
      do 2 eexists; repeat split.
  - do 2 eexists. repeat split.
Qed.

Lemma analysis_with_key_asks_once_witness :
  exists evs,
    get_ai_analysis_safe "AAPL: 現價1.0, 成本150" failing_inference_world []
    = (Ok "AI 分析暫時不可用 (429 quota exceeded)", evs) /\
    inference_events evs
    = [ GenaiModel "gemini-1.5-flash";
        GenaiGenerate "gemini-1.5-flash"
          (instruction ++ "AAPL: 現價1.0, 成本150") ].
Proof.
  destruct (analysis_with_key_asks_once failing_inference_world []
              "AAPL: 現價1.0, 成本150" eq_refl)
    as [text [evs [Hrun H]]].
  simpl in H. destruct H as [Hevs Htext].
  exists evs. rewrite Hrun, Htext, Hevs. split; reflexivity.
Defined.

(** *** More on the quote fetcher *)

(** X2. What [get_stock_price_safe] returns is either the sentinel [0.0]
    itself or a figure the provider reported in this very fetch (the fast
    field, or the latest close of the one-day window), unchanged and not
    zero; in particular it never returns [-0.0]. *)
Theorem fetched_price_is_sentinel_or_provider_figure :
  forall (w : World) (h : list event) (ticker : string),
    exists price evs,
      get_stock_price_safe ticker w h = (Ok price, evs) /\
      (price = 0%float \/
       ((price =? 0)%float = false /\
        (yf_last_price w (at_fast w h ticker) ticker = Ok (Some price) \/
         exists hist col,
           yf_history w (at_history w h ticker) ticker "1d" = Ok hist /\
           df_getitem hist "Close" = Ok col /\
           iloc_last col = Ok price))).
Proof.
  intros w h ticker.
  unfold at_history, at_fast, at_ticker.
  run_fetch.
  repeat split_answer; do 2 eexists; (split; [reflexivity |]);
    try (left; reflexivity);
    right; (split; [assumption |]);
    first [ left; reflexivity
          | right; do 2 eexists; repeat split;
            first [reflexivity | eassumption] ].
Qed.

(** X3. Every fetch sleeps exactly once, for the delay drawn from
    [random.uniform(0.5, 1.5)], and does so before it touches the
    provider: the run starts with the sleep, then the ticker object. *)
Theorem fetch_sleeps_once_before_reading :
  forall (w : World) (h : list event) (ticker : string),
    exists price rest,
      get_stock_price_safe ticker w h
      = (Ok price,
         Call_get_stock_price_safe ticker
         :: Sleep (random_uniform w (h ++ [Call_get_stock_price_safe ticker])
                                  0.5 1.5)
         :: YfTicker ticker :: rest) /\
      sleeps rest = [].
Proof.
  intros w h ticker.
  run_fetch.
  repeat split_answer; do 2 eexists; split; reflexivity.
Qed.

(** X4. The fetcher logs its failures and nothing else: a run holds no
    INFO or ERROR record; when no step of the fetch raises it holds no
    WARNING either, and when a step raises [e] it holds exactly one
    WARNING, made of the prefix, the ticker and [str(e)] of that very
    exception, and the sentinel is returned. *)
Theorem fetch_logs_exactly_its_failures :
  forall (w : World) (h : list event) (ticker : string),
    exists price evs,
      get_stock_price_safe ticker w h = (Ok price, evs) /\
      logged INFO evs = [] /\
      logged ERROR evs = [] /\
      match fetch_failure w h ticker with
      | None => logged WARNING evs = []
      | Some e =>
          price = 0%float /\
          logged WARNING evs
          = ["獲取股價失敗 " ++ ticker ++ ": " ++ str_exn e]
      end.
Proof.
  intros w h ticker.
  unfold fetch_failure, latest_close, fast_empty,
    at_history, at_fast, at_ticker.
  run_fetch.
  repeat split_answer; do 2 eexists; repeat split; reflexivity.
Qed.

(** A frame without a Close column: the [KeyError] is the one logged. *)
Lemma fetch_missing_close_run :
  exists evs,
    get_stock_price_safe "AAPL"
      {| TELEGRAM_TOKEN := None; CHAT_ID := None; GEMINI_KEY := None;
         request_args := [];
         random_uniform := fun _ a _ => a;
         yf_Ticker := fun _ _ => Ok tt;
         yf_last_price := fun _ _ => Ok None;
         yf_history := fun _ _ _ => Ok [("Open", [149%float])];
         genai_GenerativeModel := fun _ _ => Ok tt;
         genai_generate_text := fun _ _ _ => Ok "summary";
         requests_post := fun _ _ _ _ => Ok tt |} []
    = (Ok 0%float, evs) /\
    logged WARNING evs = ["獲取股價失敗 AAPL: 'Close'"].
Proof. eexists. split; reflexivity. Qed.

(** X5. A ticker the provider knows nothing about (no fast figure, an
    empty one-day window) gives the sentinel silently: all three provider
    reads happen, nothing raises and nothing is logged. *)
Theorem fetch_without_data_is_silent :
  forall (w : World) (h : list event) (ticker : string)
         (fast : option float) (hist : DataFrame),
    yf_Ticker w (at_ticker w h ticker) ticker = Ok tt ->
    yf_last_price w (at_fast w h ticker) ticker = Ok fast ->
    truthy_float fast = false ->
    yf_history w (at_history w h ticker) ticker "1d" = Ok hist ->
    df_empty hist = true ->
    exists evs,
      get_stock_price_safe ticker w h = (Ok 0%float, evs) /\
      logged WARNING evs = [] /\
      provider_reads evs
      = [YfTicker ticker; YfLastPrice ticker; YfHistory ticker "1d"].
Proof.
  intros w h ticker fast hist Hticker Hfast Hfalsy Hhist Hempty.
  unfold at_history, at_fast, at_ticker in *.
  rewrite <- !app_assoc in Hfast. rewrite <- !app_assoc in Hhist.
  simpl in Hfast, Hhist.
  run_fetch.
  rewrite Hticker. tidy. rewrite Hfast. tidy. rewrite Hfalsy. tidy.
  rewrite Hhist. tidy. rewrite Hempty. tidy. rewrite Hfalsy. tidy.
  eexists. repeat split.
Qed.

Lemma fetch_without_data_is_silent_witness :
  exists evs,
    get_stock_price_safe "XXXX" (provider_world None []) []
    = (Ok 0%float, evs) /\
    logged WARNING evs = [] /\
    provider_reads evs
    = [YfTicker "XXXX"; YfLastPrice "XXXX"; YfHistory "XXXX" "1d"].
Proof.
  apply (fetch_without_data_is_silent (provider_world None []) [] "XXXX"
           None [("Close", [])]); reflexivity.
Defined.

(** *** More on one position *)

(** X6. A fetched price that is not above 0 (zero, negative, or not a
    number) is never reported as a quote: the loop body appends the
    unavailable line, adds nothing to the data summary and computes no
    profit, whatever the position's cost. *)
Theorem loop_body_rejects_nonpositive_price :
  forall (w : World) (h : list event) (item : Position)
         (report ai_data_context : string) (price : float) (evs : list event),
    get_stock_price_safe (symbol item) w h = (Ok price, evs) ->
    (0 <? price)%float = false ->
    loop_body item (report, ai_data_context) w h
    = (Ok (report ++ "⚪ " ++ symbol item ++ ": 無法獲取報價" ++ LF,
           ai_data_context),
       evs).
Proof.
  intros w h item report ctx price evs Hfetch Hneg.
  rewrite (loop_body_after_fetch w h item report ctx price evs Hfetch
             (or_intror Hneg)).
  unfold position_line, position_context. rewrite Hneg.
  rewrite string_app_nil_r. reflexivity.
Qed.

Lemma loop_body_rejects_nonpositive_price_witness :
  exists evs,
    get_stock_price_safe "AAPL" nan_close_world [] = (Ok nan, evs) /\
    loop_body {| symbol := "AAPL"; cost := 150; shares := 10 |}
              (report_header, "") nan_close_world []
    = (Ok (report_header ++ "⚪ AAPL: 無法獲取報價" ++ LF, ""), evs).
Proof.
  eexists. split; [reflexivity |].
  apply (loop_body_rejects_nonpositive_price nan_close_world []
           {| symbol := "AAPL"; cost := 150; shares := 10 |}
           report_header "" nan); reflexivity.
Defined.

(** With a cost of zero the division of line 124 raises. *)
Lemma loop_body_zero_cost :
  forall (w : World) (h : list event) (item : Position)
         (st : string * string) (price : float) (evs : list event),
    cost item = 0 ->
    get_stock_price_safe (symbol item) w h = (Ok price, evs) ->
    (0 <? price)%float = true ->
    loop_body item st w h
    = (Raise (Exception "ZeroDivisionError" "float division by zero"), evs).
Proof.
  intros w h item [report ctx] price evs Hcost Hfetch Hpos.
  unfold loop_body, bind, lift. rewrite Hfetch, Hpos, Hcost.
  change (sub_fi price 0) with (Ok (price - 0)%float : result float).
  cbv beta iota.
  change (truediv_fi (price - 0)%float 0)
    with (Raise (Exception "ZeroDivisionError" "float division by zero")
          : result float).
  cbv beta iota. rewrite !app_nil_r. reflexivity.
Qed.

(** X7. Nothing guards the division by the cost: for a watch list whose
    first position has cost 0 and a fetched price above 0, the handler
    body raises [ZeroDivisionError] right after that fetch; no report is
    returned, and the analysis requester and the notifier are not
    reached. *)
Theorem zero_cost_position_raises :
  forall (w : World) (h : list event) (item : Position)
         (rest : list Position) (price : float) (evs : list event),
    cost item = 0 ->
    get_stock_price_safe (symbol item) w
      (h ++ [Log INFO "收到請求，開始執行教學演示..."])%list = (Ok price, evs) ->
    (0 <? price)%float = true ->
    handle (item :: rest) w h
    = (Raise (Exception "ZeroDivisionError" "float division by zero"),
       Log INFO "收到請求，開始執行教學演示..." :: evs).
Proof.
  intros w h item rest price evs Hcost Hfetch Hpos.
  unfold handle, bind, logger_info, emit.
  change (for_items (item :: rest) (report_header, ""))
    with (bind (loop_body item (report_header, ""))
               (fun st' => for_items rest st')).
  unfold bind.
  rewrite (loop_body_zero_cost w _ item (report_header, "") price evs
             Hcost Hfetch Hpos).
  reflexivity.
Qed.

Lemma zero_cost_position_raises_witness :
  handle (gift :: demo_portfolio) bare_world []
  = (Raise (Exception "ZeroDivisionError" "float division by zero"),
     [ Log INFO "收到請求，開始執行教學演示...";
       Call_get_stock_price_safe "2330.TW"; Sleep 0.5; YfTicker "2330.TW";
       YfLastPrice "2330.TW"; Ret_get_stock_price_safe "2330.TW" 660 ]).
Proof.
  exact (zero_cost_position_raises bare_world [] gift demo_portfolio
           660%float _ eq_refl eq_refl eq_refl).
Defined.

(** *** The phases of a request *)

(** A projection is empty on events of a class it does not select. *)
Lemma flat_map_none :
  forall (B : Type) (cls : event -> bool) (g : event -> list B)
         (evs : list event),
    (forall e, cls e = true -> g e = []) ->
    forallb cls evs = true ->
    flat_map g evs = [].
Proof.
  intros B cls g evs Hg. induction evs as [| e evs IH]; intros Hall.
  - reflexivity.
  - simpl in Hall. apply andb_prop in Hall. destruct Hall as [He Hevs].
    simpl. rewrite (Hg e He), (IH Hevs). reflexivity.
Qed.

Lemma filter_none :
  forall (cls sel : event -> bool) (evs : list event),
    (forall e, cls e = true -> sel e = false) ->
    forallb cls evs = true ->
    filter sel evs = [].
Proof.
  intros cls sel evs Hsel. induction evs as [| e evs IH]; intros Hall.
  - reflexivity.
  - simpl in Hall. apply andb_prop in Hall. destruct Hall as [He Hevs].
    simpl. rewrite (Hsel e He). apply IH. exact Hevs.
Qed.

(** Whatever a fetch returns, its run holds fetcher events only, one
    sleep among them. *)
Lemma fetch_events :
  forall (w : World) (h : list event) (ticker : string)
         (r : result float) (evs : list event),
    get_stock_price_safe ticker w h = (r, evs) ->
    forallb fetcher_event evs = true /\ List.length (sleeps evs) = 1%nat.
Proof.
  intros w h ticker r evs. revert r evs.
  run_fetch.
  repeat split_answer; intros r evs H; injection H as <- <-;
    split; reflexivity.
Qed.

Lemma loop_body_events :
  forall (w : World) (h : list event) (item : Position)
         (st : string * string) (r : result (string * string))
         (evs : list event),
    loop_body item st w h = (r, evs) ->
    forallb fetcher_event evs = true /\ List.length (sleeps evs) = 1%nat.
Proof.
  intros w h item [report ctx] r evs.
  unfold loop_body, bind, lift, ret.
  destruct (get_stock_price_safe (symbol item) w h) as [[price | e] e1]
    eqn:Hfetch.
  - destruct (0 <? price)%float.
    + destruct (sub_fi price (cost item)) as [diff | e]; cbv beta iota.
      * destruct (truediv_fi diff (cost item)) as [ratio | e];
          cbv beta iota.
        -- destruct (mul_fi ratio 100) as [profit | e]; cbv beta iota zeta;
             rewrite !app_nil_r; intros H; injection H as <- <-;
             exact (fetch_events _ _ _ _ _ Hfetch).
        -- rewrite !app_nil_r. intros H. injection H as <- <-.
           exact (fetch_events _ _ _ _ _ Hfetch).
      * rewrite !app_nil_r. intros H. injection H as <- <-.
        exact (fetch_events _ _ _ _ _ Hfetch).
    + rewrite !app_nil_r. intros H. injection H as <- <-.
      exact (fetch_events _ _ _ _ _ Hfetch).
  - intros H. injection H as <- <-.
    exact (fetch_events _ _ _ _ _ Hfetch).
Qed.

Lemma for_items_events :
  forall (items : list Position) (w : World) (h : list event)
         (st st' : string * string) (evs : list event),
    for_items items st w h = (Ok st', evs) ->
    forallb fetcher_event evs = true /\
    List.length (sleeps evs) = List.length items.
Proof.
  induction items as [| item rest IH]; intros w h st st' evs.
  - simpl. unfold ret. intros H. injection H as <- <-. split; reflexivity.
  - change (for_items (item :: rest) st)
      with (bind (loop_body item st) (fun s => for_items rest s)).
    unfold bind.
    destruct (loop_body item st w h) as [[s1 | e] e1] eqn:Hbody.
    + destruct (for_items rest s1 w (h ++ e1)%list) as [r2 e2] eqn:Hrest.
      intros H. injection H as -> <-.
      destruct (loop_body_events _ _ _ _ _ _ Hbody) as [Hcls1 Hsl1].
      destruct (IH _ _ _ _ _ Hrest) as [Hcls2 Hsl2].
      split.
      * rewrite forallb_app, Hcls1, Hcls2. reflexivity.
      * unfold sleeps in *. rewrite flat_map_app, length_app, Hsl1, Hsl2.
        reflexivity.
    + intros H. discriminate H.
Qed.

Lemma analysis_events :
  forall (w : World) (h : list event) (data_summary : string)
         (r : result string) (evs : list event),
    get_ai_analysis_safe data_summary w h = (r, evs) ->
    forallb analysis_event evs = true.
Proof.
  intros w h data_summary r evs.
  unfold get_ai_analysis_safe, bind, read, emit, try_except, external, ret.
  simpl.
  destruct (truthy_str (GEMINI_KEY w)); simpl.
  - destruct (genai_GenerativeModel w _ _) as [[] | e]; simpl.
    + destruct (genai_generate_text w _ _ _) as [text | e]; simpl;
        intros H; injection H as <- <-; reflexivity.
    + intros H. injection H as <- <-. reflexivity.
  - intros H. injection H as <- <-. reflexivity.
Qed.

(** Without a key, a call of the requester is its entry and the warning. *)
Lemma analysis_no_key :
  forall (w : World) (h : list event) (data_summary : string)
         (r : result string) (evs : list event),
    truthy_str (GEMINI_KEY w) = false ->
    get_ai_analysis_safe data_summary w h = (r, evs) ->
    r = Ok ai_warning /\ evs = [Call_get_ai_analysis_safe data_summary].
Proof.
  intros w h data_summary r evs Hkey.
  unfold get_ai_analysis_safe, bind, read, emit. simpl.
  rewrite Hkey. simpl. intros H. injection H as <- <-. split; reflexivity.
Qed.

Lemma notifier_events :
  forall (w : World) (h : list event) (message : string)
         (r : result unit) (evs : list event),
    send_telegram message w h = (r, evs) ->
    forallb notifier_event evs = true.
Proof.
  intros w h message r evs.
  unfold send_telegram, bind, read, emit, try_except, external,
    logger_warning, logger_error.
  simpl.
  destruct (negb (truthy_str (TELEGRAM_TOKEN w))
            || negb (truthy_str (CHAT_ID w))); simpl.
  - intros H. injection H as <- <-. reflexivity.
  - destruct (requests_post w _ _ _ _) as [[] | e]; simpl;
      intros H; injection H as <- <-; reflexivity.
Qed.

(** Without a credential, a call of the notifier is its entry and the
    warning. *)
Lemma notifier_no_credentials :
  forall (w : World) (h : list event) (message : string)
         (r : result unit) (evs : list event),
    truthy_str (TELEGRAM_TOKEN w) = false \/ truthy_str (CHAT_ID w) = false ->
    send_telegram message w h = (r, evs) ->
    evs = [ Call_send_telegram message;
            Log WARNING "Telegram Token 或 Chat ID 未設定，跳過發送" ].
Proof.
  intros w h message r evs Hmiss.
  unfold send_telegram, bind, read, emit, logger_warning. simpl.
  assert (Hguard : negb (truthy_str (TELEGRAM_TOKEN w))
                   || negb (truthy_str (CHAT_ID w)) = true).
  { destruct Hmiss as [Ht | Hc].
    - rewrite Ht. reflexivity.
    - rewrite Hc. apply orb_true_r. }
  rewrite Hguard. simpl. intros H. injection H as <- <-. reflexivity.
Qed.

(** A request taken apart: the run of the loop, the run of the analysis
    requester on the loop's summary, the run of the notifier when sending
    was asked for, and the response made of them. *)
Lemma handle_anatomy :
  forall (portfolio : list Position) (w : World) (h : list event),
    forallb cost_usable portfolio = true ->
    exists prices loop_evs ai_comment ai_evs send_evs,
      let quotes := combine portfolio prices in
      let report := full_report quotes ai_comment in
      let h1 := (h ++ [Log INFO "收到請求，開始執行教學演示..."])%list in
      let h2 := (h1 ++ loop_evs)%list in
      let h3 := (h2 ++ ai_evs)%list in
      List.length prices = List.length portfolio /\
      for_items portfolio (report_header, "") w h1
      = (Ok (report_header ++ report_lines quotes,
             "" ++ data_summary_of quotes), loop_evs) /\
      fetched loop_evs = combine (map symbol portfolio) prices /\
      get_ai_analysis_safe (data_summary_of quotes) w h2
      = (Ok ai_comment, ai_evs) /\
      (if send_requested w
       then send_telegram report w h3 = (Ok tt, send_evs)
       else send_evs = []) /\
      handle portfolio w h
      = (Ok (if send_requested w then sent_body
             else "<pre>" ++ report ++ "</pre>", 200),
         (Log INFO "收到請求，開始執行教學演示..."
          :: loop_evs ++ ai_evs ++ send_evs)%list).
Proof.
  intros portfolio w h Hall.
  set (h1 := (h ++ [Log INFO "收到請求，開始執行教學演示..."])%list).
  destruct (for_items_total portfolio w h1 report_header "" Hall)
    as [prices [loop_evs [Hlen [Hloop [_ [_ [_ Hf1]]]]]]].
  set (quotes := combine portfolio prices) in *.
  destruct (get_ai_analysis_safe_total w (h1 ++ loop_evs)%list
              (data_summary_of quotes))
    as [ai_comment [ai_rest [Hai _]]].
  set (called := Call_get_ai_analysis_safe (data_summary_of quotes)) in *.
  destruct (send_telegram_total w ((h1 ++ loop_evs) ++ called :: ai_rest)%list
              (full_report quotes ai_comment))
    as [send_rest [Hsend _]].
  assert (Hreport :
    (((report_header ++ report_lines quotes) ++ ai_header) ++ ai_comment)
      ++ disclaimer = full_report quotes ai_comment).
  { unfold full_report. rewrite !string_app_assoc. reflexivity. }
  assert (Hrun :
    handle portfolio w h
    = if send_requested w then
        (Ok (sent_body, 200),
         (Log INFO "收到請求，開始執行教學演示..."
          :: loop_evs ++ (called :: ai_rest)
          ++ Call_send_telegram (full_report quotes ai_comment) :: send_rest)%list)
      else
        (Ok ("<pre>" ++ full_report quotes ai_comment ++ "</pre>", 200),
         (Log INFO "收到請求，開始執行教學演示..."
          :: loop_evs ++ called :: ai_rest)%list)).
  { unfold handle, bind, logger_info, emit, read, ret.
    fold h1. rewrite Hloop.
    change ("" ++ data_summary_of quotes) with (data_summary_of quotes).
    rewrite Hai.
    simpl app. rewrite !app_nil_r. rewrite Hreport.
    destruct (send_requested w).
    - rewrite Hsend. rewrite ?app_nil_r. reflexivity.
    - rewrite ?app_nil_r. reflexivity. }
  destruct (send_requested w) eqn:Hflag.
  - exists prices, loop_evs, ai_comment, (called :: ai_rest),
      (Call_send_telegram (full_report quotes ai_comment) :: send_rest).
    cbv zeta. fold quotes. fold h1.
    repeat split; assumption.
  - exists prices, loop_evs, ai_comment, (called :: ai_rest), [].
    cbv zeta. fold quotes. fold h1. rewrite app_nil_r.
    repeat split; assumption.
Qed.

Ltac by_class cls H :=
  first [ apply (flat_map_none _ cls) | apply (filter_none cls) ];
  [ intros e He; destruct e;
    try match goal with lv : level |- _ => destruct lv end;
    try discriminate He; reflexivity
  | exact H ].

(** What the events of one helper cannot contain. *)
Lemma fetcher_events_only :
  forall evs : list event,
    forallb fetcher_event evs = true ->
    analysis_calls evs = [] /\ notifier_calls evs = [] /\
    http_posts evs = [] /\ inference_events evs = [].
Proof.
  intros evs H. repeat split.
  - by_class fetcher_event H.
  - by_class fetcher_event H.
  - by_class fetcher_event H.
  - by_class fetcher_event H.
Qed.

Lemma analysis_events_only :
  forall evs : list event,
    forallb analysis_event evs = true ->
    notifier_calls evs = [] /\ http_posts evs = [] /\
    fetched evs = [] /\ sleeps evs = [].
Proof.
  intros evs H. repeat split.
  - by_class analysis_event H.
  - by_class analysis_event H.
  - by_class analysis_event H.
  - by_class analysis_event H.
Qed.

Lemma notifier_events_only :
  forall evs : list event,
    forallb notifier_event evs = true ->
    analysis_calls evs = [] /\ inference_events evs = [] /\
    fetched evs = [] /\ sleeps evs = [].
Proof.
  intros evs H. repeat split.
  - by_class notifier_event H.
  - by_class notifier_event H.
  - by_class notifier_event H.
  - by_class notifier_event H.
Qed.

Lemma map_fst_combine_same_length :
  forall (A B : Type) (l : list A) (l' : list B),
    List.length l' = List.length l -> map fst (combine l l') = l.
Proof.
  intros A B. induction l as [| a l IH]; intros l' Hlen.
  - reflexivity.
  - destruct l' as [| b l']; [discriminate Hlen |].
    simpl. rewrite IH; [reflexivity |].
    simpl in Hlen. injection Hlen as Hlen. exact Hlen.
Qed.

(** X8. A request runs in four phases that never interleave: the INFO
    record, then fetcher events only, then analysis events only, then (and
    only when sending was asked for) notifier events only. *)
Theorem demo_handler_runs_in_phases :
  forall (w : World) (h : list event),
    exists result loop_evs ai_evs send_evs,
      demo_handler w h
      = (Ok result,
         (Log INFO "收到請求，開始執行教學演示..."
          :: loop_evs ++ ai_evs ++ send_evs)%list) /\
      forallb fetcher_event loop_evs = true /\
      forallb analysis_event ai_evs = true /\
      forallb notifier_event send_evs = true /\
      (send_requested w = true \/ send_evs = []).
Proof.
  intros w h.
  destruct (handle_anatomy demo_portfolio w h demo_portfolio_usable)
    as [prices [loop_evs [ai_comment [ai_evs [send_evs H]]]]].
  cbv zeta in H. destruct H as [_ [Hloop [_ [Hai [Hsend Hrun]]]]].
  exists (if send_requested w then sent_body
          else "<pre>" ++ full_report (combine demo_portfolio prices) ai_comment
               ++ "</pre>", 200),
    loop_evs, ai_evs, send_evs.
  split; [exact Hrun |].
  split; [exact (proj1 (for_items_events _ _ _ _ _ _ Hloop)) |].
  split; [exact (analysis_events _ _ _ _ _ Hai) |].
  destruct (send_requested w).
  - split; [exact (notifier_events _ _ _ _ _ Hsend) | left; reflexivity].
  - subst send_evs. split; [reflexivity | right; reflexivity].
Qed.

(** X9. The handler body works for a watch list of any length, the empty
    one included, as long as every cost is usable: the answer is a 200,
    each symbol is fetched once and in list order, there is one sleep per
    position, and the analysis requester is called once. *)
Theorem handle_any_watch_list :
  forall (portfolio : list Position) (w : World) (h : list event),
    forallb cost_usable portfolio = true ->
    exists body evs,
      handle portfolio w h = (Ok (body, 200), evs) /\
      map fst (fetched evs) = map symbol portfolio /\
      List.length (sleeps evs) = List.length portfolio /\
      List.length (analysis_calls evs) = 1%nat.
Proof.
  intros portfolio w h Hall.
  destruct (handle_anatomy portfolio w h Hall)
    as [prices [loop_evs [ai_comment [ai_evs [send_evs H]]]]].
  cbv zeta in H. destruct H as [Hlen [Hloop [Hf [Hai [Hsend Hrun]]]]].
  destruct (for_items_events _ _ _ _ _ _ Hloop) as [Hcls1 Hsl1].
  pose proof (analysis_events _ _ _ _ _ Hai) as Hcls2.
  assert (Hcls3 : forallb notifier_event send_evs = true).
  { destruct (send_requested w).
    - exact (notifier_events _ _ _ _ _ Hsend).
    - subst send_evs. reflexivity. }
  destruct (get_ai_analysis_safe_total w
              ((h ++ [Log INFO "收到請求，開始執行教學演示..."]) ++ loop_evs)%list
              (data_summary_of (combine portfolio prices)))
    as [text [ai_rest [Hai' [Hcalls _]]]].
  rewrite Hai in Hai'. injection Hai' as _ Hshape.
  destruct (analysis_events_only _ Hcls2) as [_ [_ [Hf2 Hs2]]].
  destruct (notifier_events_only _ Hcls3) as [Ha3 [_ [Hf3 Hs3]]].
  destruct (fetcher_events_only _ Hcls1) as [Ha1 _].
  do 2 eexists. split; [exact Hrun |].
  unfold fetched, sleeps, analysis_calls in *.
  simpl flat_map. rewrite !flat_map_app.
  rewrite Hf, Hf2, Hf3, Hs2, Hs3, Ha1, Ha3, !app_nil_r.
  split; [apply map_fst_combine_same_length; rewrite length_map; exact Hlen |].
  split; [exact Hsl1 |].
  rewrite Hshape. simpl. rewrite Hcalls. reflexivity.
Qed.

Lemma handle_any_watch_list_witness :
  exists body evs,
    handle wide_portfolio bare_world [] = (Ok (body, 200), evs) /\
    map fst (fetched evs) = ["2330.TW"; "AAPL"; "MSFT"] /\
    List.length (sleeps evs) = 3%nat /\
    List.length (analysis_calls evs) = 1%nat.
Proof.
  apply (handle_any_watch_list wide_portfolio bare_world []). reflexivity.
Defined.

(** The same watch list, run: one line per position in list order, the
    two tickers the provider fails for reported as unavailable. *)
Lemma handle_wide_portfolio_run :
  exists evs,
    handle wide_portfolio bare_world []
    = (Ok ("<pre>" ++ report_header
           ++ "🟢 2330.TW: 現價 660.00 (損益 10.0%)" ++ LF
           ++ "⚪ AAPL: 無法獲取報價" ++ LF
           ++ "⚪ MSFT: 無法獲取報價" ++ LF
           ++ ai_header ++ ai_warning ++ disclaimer ++ "</pre>", 200), evs) /\
    fetched evs = [("2330.TW", 660%float); ("AAPL", 0%float); ("MSFT", 0%float)] /\
    sleeps evs = [0.5%float; 0.5%float; 0.5%float] /\
    analysis_calls evs = ["2330.TW: 現價660.0, 成本600" ++ LF].
Proof. eexists. repeat split; reflexivity. Qed.

(** The empty watch list, run: no fetch, no sleep, and the analysis
    requester still called once, on the empty summary. *)
Lemma handle_empty_watch_list_run :
  handle [] offline_world []
  = (Ok ("<pre>" ++ report_header ++ ai_header ++ ai_warning ++ disclaimer
         ++ "</pre>", 200),
     [ Log INFO "收到請求，開始執行教學演示...";
       Call_get_ai_analysis_safe "" ]).
Proof. reflexivity. Qed.

(** X10. The confirmation does not mean delivery: with [?send=true] and a
    missing messaging credential the response is still the 200
    confirmation, while the run ends in the notifier's skip warning and
    holds no POST at all. *)
Theorem confirmation_without_delivery :
  forall (w : World) (h : list event),
    send_requested w = true ->
    truthy_str (TELEGRAM_TOKEN w) = false \/ truthy_str (CHAT_ID w) = false ->
    exists evs before report,
      demo_handler w h = (Ok ("已發送 Telegram 通知", 200), evs) /\
      evs = (before
             ++ [ Call_send_telegram report;
                  Log WARNING "Telegram Token 或 Chat ID 未設定，跳過發送" ])%list /\
      http_posts evs = [].
Proof.
  intros w h Hflag Hmiss.
  destruct (handle_anatomy demo_portfolio w h demo_portfolio_usable)
    as [prices [loop_evs [ai_comment [ai_evs [send_evs H]]]]].
  cbv zeta in H. destruct H as [_ [Hloop [_ [Hai [Hsend Hrun]]]]].
  rewrite Hflag in Hsend, Hrun.
  pose proof (notifier_no_credentials _ _ _ _ _ Hmiss Hsend) as Hshape.
  destruct (fetcher_events_only _ (proj1 (for_items_events _ _ _ _ _ _ Hloop)))
    as [_ [_ [Hp1 _]]].
  destruct (analysis_events_only _ (analysis_events _ _ _ _ _ Hai))
    as [_ [Hp2 _]].
  eexists _, (Log INFO "收到請求，開始執行教學演示..." :: loop_evs ++ ai_evs)%list, _.
  split; [exact Hrun |].
  split.
  - rewrite Hshape. simpl. rewrite <- app_assoc. reflexivity.
  - unfold http_posts in *. simpl flat_map. rewrite !flat_map_app.
    rewrite Hp1, Hp2, Hshape. reflexivity.
Qed.

Lemma confirmation_without_delivery_witness :
  exists evs before report,
    demo_handler send_unconfigured_world []
    = (Ok ("已發送 Telegram 通知", 200), evs) /\
    evs = (before
           ++ [ Call_send_telegram report;
                Log WARNING "Telegram Token 或 Chat ID 未設定，跳過發送" ])%list /\
    http_posts evs = [].
Proof.
  apply (confirmation_without_delivery send_unconfigured_world []).
  - reflexivity.
  - left. reflexivity.
Defined.

(** Without a key the inference service is never contacted during a
    request. *)
Lemma no_key_no_inference :
  forall (w : World) (h : list event) (r : result (string * Z))
         (evs : list event),
    truthy_str (GEMINI_KEY w) = false ->
    demo_handler w h = (r, evs) ->
    inference_events evs = [].
Proof.
  intros w h r evs Hkey Hrun'.
  destruct (handle_anatomy demo_portfolio w h demo_portfolio_usable)
    as [prices [loop_evs [ai_comment [ai_evs [send_evs H]]]]].
  cbv zeta in H. destruct H as [_ [Hloop [_ [Hai [Hsend Hrun]]]]].
  unfold demo_handler in Hrun'. rewrite Hrun in Hrun'.
  injection Hrun' as _ <-.
  destruct (analysis_no_key _ _ _ _ _ Hkey Hai) as [_ Hshape].
  destruct (fetcher_events_only _ (proj1 (for_items_events _ _ _ _ _ _ Hloop)))
    as [_ [_ [_ Hi1]]].
  assert (Hi3 : inference_events send_evs = []).
  { destruct (send_requested w).
    - exact (proj1 (proj2 (notifier_events_only _
                             (notifier_events _ _ _ _ _ Hsend)))).
    - subst send_evs. reflexivity. }
  unfold inference_events in *. simpl filter. rewrite !filter_app.
  rewrite Hi1, Hi3, Hshape. reflexivity.
Qed.

(** X11. Without a key a whole request never contacts the inference
    service, and the analysis section of the report is the fixed warning;
    the quotes are still fetched, one per position of the watch list, and
    reported. *)
Theorem request_without_key :
  forall (w : World) (h : list event),
    truthy_str (GEMINI_KEY w) = false ->
    exists body evs prices,
      let report :=
        full_report (combine demo_portfolio prices)
                    "⚠️ AI Key 未設定，無法進行分析。" in
      demo_handler w h = (Ok (body, 200), evs) /\
      inference_events evs = [] /\
      List.length prices = List.length demo_portfolio /\
      fetched evs = combine (map symbol demo_portfolio) prices /\
      if send_requested w
      then notifier_calls evs = [report]
      else body = "<pre>" ++ report ++ "</pre>".
Proof.
  intros w h Hkey.
  destruct (demo_handler w h) as [r evs] eqn:Hrun'.
  pose proof (no_key_no_inference w h r evs Hkey Hrun') as Hinf.
  destruct (handle_anatomy demo_portfolio w h demo_portfolio_usable)
    as [prices [loop_evs [ai_comment [ai_evs [send_evs H]]]]].
  cbv zeta in H. destruct H as [Hlen [Hloop [Hf1 [Hai [Hsend Hrun]]]]].
  unfold demo_handler in Hrun'. rewrite Hrun in Hrun'.
  injection Hrun' as <- <-.
  destruct (analysis_no_key _ _ _ _ _ Hkey Hai) as [Htext Hshape].
  injection Htext as ->.
  destruct (fetcher_events_only _ (proj1 (for_items_events _ _ _ _ _ _ Hloop)))
    as [_ [Hn1 _]].
  eexists _, _, prices. cbv zeta.
  split; [reflexivity |].
  split; [exact Hinf |].
  split; [exact Hlen |].
  split.
  - assert (Hf3 : fetched send_evs = []).
    { destruct (send_requested w).
      - exact (proj1 (proj2 (proj2 (notifier_events_only _
                                       (notifier_events _ _ _ _ _ Hsend))))).
      - subst send_evs. reflexivity. }
    unfold fetched in *. simpl flat_map. rewrite !flat_map_app.
    rewrite Hf1, Hf3, Hshape. simpl. rewrite app_nil_r. reflexivity.
  - destruct (send_requested w).
    + destruct (send_telegram_total w
                  (((h ++ [Log INFO "收到請求，開始執行教學演示..."]) ++ loop_evs)
                   ++ ai_evs)%list
                  (full_report (combine demo_portfolio prices) ai_warning))
        as [send_rest [Hsend' [_ [Hn3 _]]]].
      rewrite Hsend in Hsend'. injection Hsend' as ->.
      unfold notifier_calls in *. simpl flat_map. rewrite !flat_map_app.
      rewrite Hn1, Hshape. simpl. rewrite Hn3. reflexivity.
    + reflexivity.
Qed.

Lemma request_without_key_witness :
  exists body evs prices,
    demo_handler bare_world [] = (Ok (body, 200), evs) /\
    inference_events evs = [] /\
    List.length prices = List.length demo_portfolio /\
    fetched evs = combine (map symbol demo_portfolio) prices /\
    body = "<pre>"
           ++ full_report (combine demo_portfolio prices)
                          "⚠️ AI Key 未設定，無法進行分析。"
           ++ "</pre>".
Proof.
  exact (request_without_key bare_world [] eq_refl).
Defined.

(** X12. The inference service is contacted only by a process that
    configured it at import: if a request's run holds any inference event,
    [GEMINI_KEY] is a non-empty string and [genai.configure] was called
    with exactly that key. *)
Theorem inference_only_after_configure :
  forall (w : World) (h : list event) (r : result (string * Z))
         (evs : list event),
    demo_handler w h = (r, evs) ->
    inference_events evs <> [] ->
    exists key,
      GEMINI_KEY w = Some key /\ key <> "" /\ configured_keys w = [key].
Proof.
  intros w h r evs Hrun Hsome.
  destruct (truthy_str (GEMINI_KEY w)) eqn:Hkey.
  - unfold configured_keys. rewrite Hkey.
    destruct (GEMINI_KEY w) as [[| a key] |]; try discriminate Hkey.
    exists (String a key). repeat split. discriminate.
  - exfalso. apply Hsome.
    exact (no_key_no_inference w h r evs Hkey Hrun).
Qed.

Lemma inference_only_after_configure_witness :
  exists key,
    GEMINI_KEY failing_inference_world = Some key /\ key <> "" /\
    configured_keys failing_inference_world = [key].
Proof.
  eapply (inference_only_after_configure failing_inference_world []).
  - reflexivity.
  - vm_compute. discriminate.
Defined.

(** *** Requests against a configured deployment *)

(** With a key, a call of the requester as one equation. *)
Lemma analysis_with_key_run :
  forall (w : World) (h : list event) (data_summary : string),
    truthy_str (GEMINI_KEY w) = true ->
    let name := "gemini-1.5-flash" in
    let prompt := instruction ++ data_summary in
    let called := Call_get_ai_analysis_safe data_summary in
    get_ai_analysis_safe data_summary w h
    = match genai_GenerativeModel w (h ++ [called])%list name with
      | Raise e => (Ok (fallback_text e), [called; GenaiModel name])
      | Ok _ =>
          (match genai_generate_text w (h ++ [called; GenaiModel name])%list
                                     name prompt with
           | Ok answer => Ok answer
           | Raise e => Ok (fallback_text e)
           end,
           [called; GenaiModel name; GenaiGenerate name prompt])
      end.
Proof.
  intros w h data_summary Hkey name prompt called.
  unfold get_ai_analysis_safe, bind, read, emit, try_except, external, ret.
  simpl. rewrite Hkey. simpl. rewrite !app_nil_r.
  fold name. fold prompt. fold called.
  destruct (genai_GenerativeModel w (h ++ [called])%list name) as [[] | e];
    simpl.
  - rewrite <- app_assoc. simpl.
    destruct (genai_generate_text w (h ++ [called; GenaiModel name])%list
                                  name prompt) as [answer | e]; reflexivity.
  - reflexivity.
Qed.

(** With both credentials, a call of the notifier as one equation. *)
Lemma notifier_with_credentials_run :
  forall (w : World) (h : list event) (message token chat : string),
    TELEGRAM_TOKEN w = Some token -> token <> "" ->
    CHAT_ID w = Some chat -> chat <> "" ->
    let url := "https://api.telegram.org/bot" ++ token ++ "/sendMessage" in
    let payload :=
      [ ("chat_id", JStr chat);
        ("text", JStr message);
        ("parse_mode", JStr "Markdown");
        ("disable_web_page_preview", JBool true) ] in
    send_telegram message w h
    = (Ok tt,
       Call_send_telegram message :: HttpPost url payload 10
       :: match requests_post w (h ++ [Call_send_telegram message])%list
                              url payload 10 with
          | Ok _ => []
          | Raise e => [Log ERROR ("Telegram 發送失敗: " ++ str_exn e)]
          end).
Proof.
  intros w h message token chat Ht Hne Hc Hnec url payload.
  unfold send_telegram, bind, read, emit, try_except, external, logger_error.
  simpl. rewrite Ht, Hc. simpl.
  destruct token as [| a token']; [congruence |].
  destruct chat as [| b chat']; [congruence |].
  simpl. rewrite !app_nil_r.
  fold url. fold payload.
  destruct (requests_post w (h ++ [Call_send_telegram message])%list url payload 10)
    as [[] | e]; reflexivity.
Qed.

(** The notifier calls of a request, from its parts. *)
Lemma request_notifier_calls :
  forall (w : World) (h1 h2 h3 : list event) (portfolio : list Position)
         (st : string * string) (loop_evs ai_evs send_evs : list event)
         (data_summary ai_comment report : string),
    for_items portfolio (report_header, "") w h1 = (Ok st, loop_evs) ->
    get_ai_analysis_safe data_summary w h2 = (Ok ai_comment, ai_evs) ->
    (if send_requested w
     then send_telegram report w h3 = (Ok tt, send_evs)
     else send_evs = []) ->
    notifier_calls (loop_evs ++ ai_evs ++ send_evs)
    = if send_requested w then [report] else [].
Proof.
  intros w h1 h2 h3 portfolio st loop_evs ai_evs send_evs
         data_summary ai_comment report Hloop Hai Hsend.
  destruct (fetcher_events_only _ (proj1 (for_items_events _ _ _ _ _ _ Hloop)))
    as [_ [Hn1 _]].
  destruct (analysis_events_only _ (analysis_events _ _ _ _ _ Hai))
    as [Hn2 _].
  unfold notifier_calls in *. rewrite !flat_map_app, Hn1, Hn2. simpl.
  destruct (send_requested w).
  - destruct (send_telegram_total w h3 report)
      as [send_rest [Hsend' [_ [Hn3 _]]]].
    rewrite Hsend in Hsend'. injection Hsend' as ->.
    unfold notifier_calls in Hn3. simpl. rewrite Hn3. reflexivity.
  - subst send_evs. reflexivity.
Qed.

(** X13. An inference service that is down degrades the content, not the
    response: with a key set and every generation request raising [e],
    the request still answers 200 and the report's analysis section is
    the fallback text carrying [e]. *)
Theorem request_with_inference_down :
  forall (w : World) (h : list event) (e : exn),
    truthy_str (GEMINI_KEY w) = true ->
    (forall h' name, genai_GenerativeModel w h' name = Ok tt) ->
    (forall h' name prompt, genai_generate_text w h' name prompt = Raise e) ->
    exists body evs prices,
      let report :=
        full_report (combine demo_portfolio prices)
                    ("AI 分析暫時不可用 (" ++ str_exn e ++ ")") in
      demo_handler w h = (Ok (body, 200), evs) /\
      fetched evs = combine (map symbol demo_portfolio) prices /\
      if send_requested w
      then notifier_calls evs = [report]
      else body = "<pre>" ++ report ++ "</pre>".
Proof.
  intros w h e Hkey Hmodel Hgen.
  destruct (handle_anatomy demo_portfolio w h demo_portfolio_usable)
    as [prices [loop_evs [ai_comment [ai_evs [send_evs H]]]]].
  cbv zeta in H. destruct H as [_ [Hloop [Hf1 [Hai [Hsend Hrun]]]]].
  match type of Hai with
  | get_ai_analysis_safe ?d _ ?hh = _ =>
      pose proof (analysis_with_key_run w hh d Hkey) as Hai'
  end.
  cbv zeta in Hai'. rewrite Hmodel, Hgen in Hai'.
  rewrite Hai in Hai'. injection Hai' as -> Hshape.
  assert (Hcalls :
    notifier_calls (loop_evs ++ ai_evs ++ send_evs)
    = if send_requested w
      then [full_report (combine demo_portfolio prices) (fallback_text e)]
      else []).
  { eapply request_notifier_calls; [exact Hloop | exact Hai | exact Hsend]. }
  eexists (if send_requested w then sent_body
           else "<pre>" ++ full_report (combine demo_portfolio prices)
                                       (fallback_text e) ++ "</pre>"),
    _, prices.
  cbv zeta. split; [exact Hrun |]. split.
  - destruct (analysis_events_only _ (analysis_events _ _ _ _ _ Hai))
      as [_ [_ [Hf2 _]]].
    assert (Hf3 : fetched send_evs = []).
    { destruct (send_requested w).
      - exact (proj1 (proj2 (proj2 (notifier_events_only _
                                       (notifier_events _ _ _ _ _ Hsend))))).
      - subst send_evs. reflexivity. }
    unfold fetched in *. simpl flat_map. rewrite !flat_map_app.
    rewrite Hf1, Hf2, Hf3, !app_nil_r. reflexivity.
  - destruct (send_requested w).
    + exact Hcalls.
    + reflexivity.
Qed.

Lemma request_with_inference_down_witness :
  exists body evs prices,
    demo_handler failing_inference_world [] = (Ok (body, 200), evs) /\
    fetched evs = combine (map symbol demo_portfolio) prices /\
    body = "<pre>"
           ++ full_report (combine demo_portfolio prices)
                          "AI 分析暫時不可用 (429 quota exceeded)"
           ++ "</pre>".
Proof.
  exact (request_with_inference_down failing_inference_world []
           (Exception "ResourceExhausted" "429 quota exceeded")
           eq_refl (fun _ _ => eq_refl) (fun _ _ _ => eq_refl)).
Defined.

(** X14. With [?send=true] and both credentials, a request issues exactly
    one POST, and its text field is the finished report, the same text a
    request without the parameter returns inside [<pre>]; the response is
    the 200 confirmation whether or not the POST raised. *)
Theorem request_posts_report_once :
  forall (w : World) (h : list event) (token chat : string),
    send_requested w = true ->
    TELEGRAM_TOKEN w = Some token -> token <> "" ->
    CHAT_ID w = Some chat -> chat <> "" ->
    exists evs prices ai_comment,
      demo_handler w h = (Ok ("已發送 Telegram 通知", 200), evs) /\
      fetched evs = combine (map symbol demo_portfolio) prices /\
      http_posts evs
      = [ ("https://api.telegram.org/bot" ++ token ++ "/sendMessage",
           [ ("chat_id", JStr chat);
             ("text", JStr (full_report (combine demo_portfolio prices)
                                        ai_comment));
             ("parse_mode", JStr "Markdown");
             ("disable_web_page_preview", JBool true) ],
           10) ].
Proof.
  intros w h token chat Hflag Ht Hne Hc Hnec.
  destruct (handle_anatomy demo_portfolio w h demo_portfolio_usable)
    as [prices [loop_evs [ai_comment [ai_evs [send_evs H]]]]].
  cbv zeta in H. destruct H as [_ [Hloop [Hf1 [Hai [Hsend Hrun]]]]].
  rewrite Hflag in Hsend, Hrun.
  match type of Hsend with
  | send_telegram ?m _ ?hh = _ =>
      pose proof (notifier_with_credentials_run w hh m token chat
                    Ht Hne Hc Hnec) as Hsend'
  end.
  cbv zeta in Hsend'. rewrite Hsend in Hsend'. injection Hsend' as Hshape.
  destruct (fetcher_events_only _ (proj1 (for_items_events _ _ _ _ _ _ Hloop)))
    as [_ [_ [Hp1 _]]].
  destruct (analysis_events_only _ (analysis_events _ _ _ _ _ Hai))
    as [_ [Hp2 [Hf2 _]]].
  eexists _, prices, ai_comment.
  split; [exact Hrun |].
  unfold fetched, http_posts in *. simpl flat_map. rewrite !flat_map_app.
  rewrite Hf1, Hf2, Hp1, Hp2, Hshape.
  split.
  - simpl.
    destruct (requests_post w _ _ _ _) as [[] | e]; simpl;
      rewrite app_nil_r; reflexivity.
  - simpl.
    destruct (requests_post w _ _ _ _) as [[] | e]; reflexivity.
Qed.

Lemma request_posts_report_once_witness :
  exists evs prices ai_comment,
    demo_handler configured_world [] = (Ok ("已發送 Telegram 通知", 200), evs) /\
    fetched evs = combine (map symbol demo_portfolio) prices /\
    http_posts evs
    = [ ("https://api.telegram.org/bot" ++ "123456:ABC" ++ "/sendMessage",
         [ ("chat_id", JStr "42");
           ("text", JStr (full_report (combine demo_portfolio prices)
                                      ai_comment));
           ("parse_mode", JStr "Markdown");
           ("disable_web_page_preview", JBool true) ],
         10) ].
Proof.
  apply (request_posts_report_once configured_world [] "123456:ABC" "42");
    first [reflexivity | discriminate].
Defined.

(** X15. With a key and a model that can be built, a request sends the
    inference service exactly one prompt: the fixed instruction followed by
    the data summary of the prices it has just fetched, in which only the
    positions priced above 0 appear. *)
Theorem request_prompt_is_instruction_and_summary :
  forall (w : World) (h : list event),
    truthy_str (GEMINI_KEY w) = true ->
    (forall h' name, genai_GenerativeModel w h' name = Ok tt) ->
    exists r evs prices,
      demo_handler w h = (r, evs) /\
      fetched evs = combine (map symbol demo_portfolio) prices /\
      inference_events evs
      = [ GenaiModel "gemini-1.5-flash";
          GenaiGenerate "gemini-1.5-flash"
            (instruction
             ++ data_summary_of (combine demo_portfolio prices)) ].
Proof.
  intros w h Hkey Hmodel.
  destruct (handle_anatomy demo_portfolio w h demo_portfolio_usable)
    as [prices [loop_evs [ai_comment [ai_evs [send_evs H]]]]].
  cbv zeta in H. destruct H as [_ [Hloop [Hf1 [Hai [Hsend Hrun]]]]].
  match type of Hai with
  | get_ai_analysis_safe ?d _ ?hh = _ =>
      pose proof (analysis_with_key_run w hh d Hkey) as Hai'
  end.
  cbv zeta in Hai'. rewrite Hmodel in Hai'.
  rewrite Hai in Hai'. injection Hai' as _ Hshape.
  destruct (fetcher_events_only _ (proj1 (for_items_events _ _ _ _ _ _ Hloop)))
    as [_ [_ [_ Hi1]]].
  assert (Hsend_cls : forallb notifier_event send_evs = true).
  { destruct (send_requested w).
    - exact (notifier_events _ _ _ _ _ Hsend).
    - subst send_evs. reflexivity. }
  destruct (notifier_events_only _ Hsend_cls) as [_ [Hi3 [Hf3 _]]].
  eexists _, _, prices.
  split; [exact Hrun |].
  unfold fetched, inference_events in *.
  simpl flat_map. simpl filter. rewrite !flat_map_app, !filter_app.
  rewrite Hf1, Hf3, Hi1, Hi3, Hshape. simpl. rewrite app_nil_r.
  split; reflexivity.
Qed.

Lemma request_prompt_is_instruction_and_summary_witness :
  exists r evs prices,
    demo_handler configured_world [] = (r, evs) /\
    fetched evs = combine (map symbol demo_portfolio) prices /\
    inference_events evs
    = [ GenaiModel "gemini-1.5-flash";
        GenaiGenerate "gemini-1.5-flash"
          (instruction ++ data_summary_of (combine demo_portfolio prices)) ].
Proof.
  exact (request_prompt_is_instruction_and_summary configured_world []
           eq_refl (fun _ _ => eq_refl)).
Defined.

(** *** The response *)

(** C3. Every request is answered with status 200.  The run is the INFO
    record, the loop, the analysis requester and the notifier, in this
    order; one price is fetched per position of the watch list, the
    analysis requester is called once on the data summary of these prices,
    and the report is the header, one line per position for the price
    fetched for it, the analysis section holding what the requester
    returned, and the disclaimer.  With [?send=true] the notifier is
    called once, on this report, and the body is the short confirmation;
    otherwise the notifier is not called, no POST is issued, and the body
    is this report inside a [<pre>] element. *)
Theorem demo_handler_always_200 :
  forall (w : World) (h : list event),
    exists body evs prices ai_comment loop_evs ai_evs send_evs,
      let quotes := combine demo_portfolio prices in
      let report := full_report quotes ai_comment in
      let started := Log INFO "收到請求，開始執行教學演示..." in
      demo_handler w h = (Ok (body, 200), evs) /\
      evs = (started :: loop_evs ++ ai_evs ++ send_evs)%list /\
      List.length prices = List.length demo_portfolio /\
      fetched loop_evs = combine (map symbol demo_portfolio) prices /\
      fetched evs = combine (map symbol demo_portfolio) prices /\
      get_ai_analysis_safe (data_summary_of quotes) w
        ((h ++ [started]) ++ loop_evs)%list = (Ok ai_comment, ai_evs) /\
      analysis_calls evs = [data_summary_of quotes] /\
      if send_requested w
      then body = "已發送 Telegram 通知" /\
           notifier_calls evs = [report] /\
           (List.length (http_posts evs) <= 1)%nat
      else body = "<pre>" ++ report ++ "</pre>" /\
           notifier_calls evs = [] /\
           http_posts evs = [].
Proof.
  intros w h.
  destruct (handle_anatomy demo_portfolio w h demo_portfolio_usable)
    as [prices [loop_evs [ai_comment [ai_evs [send_evs H]]]]].
  cbv zeta in H. destruct H as [Hlen [Hloop [Hf1 [Hai [Hsend Hrun]]]]].
  destruct (fetcher_events_only _ (proj1 (for_items_events _ _ _ _ _ _ Hloop)))
    as [Ha1 [_ [Hp1 _]]].
  destruct (analysis_events_only _ (analysis_events _ _ _ _ _ Hai))
    as [_ [Hp2 [Hf2 _]]].
  assert (Hcls3 : forallb notifier_event send_evs = true).
  { destruct (send_requested w).
    - exact (notifier_events _ _ _ _ _ Hsend).
    - subst send_evs. reflexivity. }
  destruct (notifier_events_only _ Hcls3) as [Ha3 [_ [Hf3 _]]].
  assert (Hcalls :
    notifier_calls (loop_evs ++ ai_evs ++ send_evs)
    = if send_requested w
      then [full_report (combine demo_portfolio prices) ai_comment]
      else []).
  { eapply request_notifier_calls; [exact Hloop | exact Hai | exact Hsend]. }
  destruct (get_ai_analysis_safe_total w
              ((h ++ [Log INFO "收到請求，開始執行教學演示..."]) ++ loop_evs)%list
              (data_summary_of (combine demo_portfolio prices)))
    as [text [ai_rest [Hai' [Ha2 _]]]].
  rewrite Hai in Hai'. injection Hai' as _ Hshape.
  eexists _, _, prices, ai_comment, loop_evs, ai_evs, send_evs.
  cbv zeta.
  split; [exact Hrun |].
  split; [reflexivity |].
  split; [exact Hlen |].
  split; [exact Hf1 |].
  split.
  { unfold fetched in *. simpl flat_map. rewrite !flat_map_app.
    rewrite Hf1, Hf2, Hf3, !app_nil_r. reflexivity. }
  split; [exact Hai |].
  split.
  { unfold analysis_calls in *. simpl flat_map. rewrite !flat_map_app.
    rewrite Ha1, Ha3, Hshape. simpl. rewrite Ha2. reflexivity. }
  assert (Hn : notifier_calls
                 (Log INFO "收到請求，開始執行教學演示..."
                  :: loop_evs ++ ai_evs ++ send_evs)
               = notifier_calls (loop_evs ++ ai_evs ++ send_evs)).
  { reflexivity. }
  rewrite Hn, Hcalls.
  destruct (send_requested w).
  - split; [reflexivity |]. split; [reflexivity |].
    destruct (send_telegram_total w
                (((h ++ [Log INFO "收到請求，開始執行教學演示..."]) ++ loop_evs)
                 ++ ai_evs)%list
                (full_report (combine demo_portfolio prices) ai_comment))
      as [send_rest [Hsend' [_ [_ [_ Hp3]]]]].
    rewrite Hsend in Hsend'. injection Hsend' as ->.
    unfold http_posts in *. simpl flat_map. rewrite !flat_map_app.
    rewrite Hp1, Hp2. simpl. exact Hp3.
  - split; [reflexivity |]. split; [reflexivity |].
    subst send_evs.
    unfold http_posts in *. simpl flat_map. rewrite !flat_map_app.
    rewrite Hp1, Hp2. reflexivity.
Qed.
